(** * Order / inventory core of the business-management application

    A shallow embedding of [src/models/order.py], [src/models/product.py]
    and the number generator of [src/controllers/database_controller.py].

    Modelling conventions.
    - The SQLite file is one shared store [Db]; every model object opens its
      own connection to the same file and [execute_query] commits after each
      statement, so each statement is one step on [Db].
    - A table with [INTEGER PRIMARY KEY AUTOINCREMENT] is a finite map from
      row id to row, together with the counter SQLite keeps in
      [sqlite_sequence].
    - Numbers are Python [int]s. [sqlite3] binds an [int] as a signed 64-bit
      integer and raises OverflowError on any other ([int64]); the method
      that issued the statement catches the error and answers [False].
      This failure is modelled in the methods that compute with what the
      caller passes ([Product.update_stock], [Product.save],
      [Order.add_item], [Order.add_payment], [Order.record_payment]);
      elsewhere the numbers bound are taken within that range.
    - Money columns are declared REAL; amounts are taken here in whole
      currency units (as in the spec's scenarios) and modelled by [Z]. A
      REAL column holds a whole amount exactly as long as its magnitude is
      at most 2^53 ([real_exact]), and the sums SQLite and Python form of
      such amounts are exact within the same bound; the model keeps every
      amount exact, and the statements on what becomes of a price or an
      amount passed by the caller carry the bound as a hypothesis.
    - An order object holds a status and two amounts, as the constructor's
      defaults do. A product object may lack name, price and stock
      ([None]); [products.stock] may be NULL.
    - Text is [string]; only ASCII text is considered.
    - Columns that none of the modelled methods reads or writes (dates,
      timestamps, description, cost, unit, category) are left out.
    - Storage failures (I/O errors, locked file, a table that has handed out
      its largest row id) are not modelled: a statement raises only when a
      parameter cannot be bound or a constraint of the schema is violated.
      Foreign keys are not enforced by the connection the code opens. *)

From Stdlib Require Import ZArith String Ascii List Lia DecimalString.
From stdpp Require Import gmap strings list fin_maps sorting.

Open Scope Z_scope.

(** ** Schema ([DatabaseController.create_tables]) *)

Record ProductRow := mkProductRow {
  p_name : string;                  (* TEXT NOT NULL *)
  p_price : Z;                      (* REAL NOT NULL *)
  p_stock : option Z                (* INTEGER DEFAULT 0 *)
}.

Record OrderRow := mkOrderRow {
  r_order_number : string;          (* TEXT UNIQUE NOT NULL *)
  r_customer_id : option Z;
  r_status : string;
  r_total_amount : Z;               (* NOT NULL *)
  r_paid_amount : Z;
  r_notes : option string
}.

Record ItemRow := mkItemRow {
  i_order_id : Z;
  i_product_id : Z;
  i_quantity : Z;
  i_price : Z;
  i_total : Z
}.

Record FinRow := mkFinRow {
  f_type : string;
  f_category : string;
  f_amount : Z;
  f_description : string;
  f_reference_id : string;
  f_reference_type : string;
  f_payment_method : string
}.

(** A table: its rows by id and the AUTOINCREMENT counter. *)
Record Table (A : Type) := mkTable {
  rows : gmap Z A;
  seq : Z
}.
Arguments mkTable {A} _ _.
Arguments rows {A} _.
Arguments seq {A} _.

Definition max_key {A} (m : gmap Z A) : Z :=
  map_fold (fun k _ acc => Z.max k acc) 0 m.

(** The id an AUTOINCREMENT insert gives: one more than the largest id the
    table holds or has ever handed out. *)
Definition next_rowid {A} (t : Table A) : Z :=
  1 + Z.max (seq t) (max_key (rows t)).

(** [INSERT INTO t ...]; the second component is [cursor.lastrowid]. *)
Definition insert_row {A} (a : A) (t : Table A) : Table A * Z :=
  let k := next_rowid t in
  (mkTable (<[k:=a]> (rows t)) k, k).

(** [UPDATE t SET ... WHERE id = k]. *)
Definition update_row {A} (f : A -> A) (k : Z) (t : Table A) : Table A :=
  mkTable (alter f k (rows t)) (seq t).

(** [DELETE FROM t WHERE id = k]. *)
Definition delete_row {A} (k : Z) (t : Table A) : Table A :=
  mkTable (delete k (rows t)) (seq t).

Record Db := mkDb {
  products : Table ProductRow;
  orders : Table OrderRow;
  order_items : Table ItemRow;
  financial_transactions : Table FinRow
}.

Definition with_products (t : Table ProductRow) (db : Db) : Db :=
  mkDb t (orders db) (order_items db) (financial_transactions db).
Definition with_orders (t : Table OrderRow) (db : Db) : Db :=
  mkDb (products db) t (order_items db) (financial_transactions db).
Definition with_order_items (t : Table ItemRow) (db : Db) : Db :=
  mkDb (products db) (orders db) t (financial_transactions db).
Definition with_financial_transactions (t : Table FinRow) (db : Db) : Db :=
  mkDb (products db) (orders db) (order_items db) t.

(** [SELECT COALESCE(SUM(total), 0) FROM order_items WHERE order_id = ?]. *)
Definition sum_step (order_id : Z) (_ : Z) (it : ItemRow) (acc : Z) : Z :=
  if Z.eqb (i_order_id it) order_id then i_total it + acc else acc.

Definition items_sum (order_id : Z) (m : gmap Z ItemRow) : Z :=
  map_fold (sum_step order_id) 0 m.

(** ** Binding parameters *)

(** The Python [int]s [sqlite3] can bind: those of the signed 64-bit range.
    Binding any other raises OverflowError before the statement runs. *)
Definition int64 (n : Z) : bool := (- 2 ^ 63 <=? n) && (n <? 2 ^ 63).

(** A parameter that may be [None]: [None] is bound as NULL. *)
Definition bindable (v : option Z) : bool :=
  match v with
  | Some n => int64 n
  | None => true
  end.

(** The whole amounts a REAL column holds exactly. *)
Definition real_exact (n : Z) : bool := (- 2 ^ 53 <=? n) && (n <=? 2 ^ 53).

(** [ORDER BY] on a column that may be NULL: NULL comes before every
    number. *)
Definition null_first_le (a b : option Z) : Prop :=
  match a, b with
  | None, _ => True
  | Some _, None => False
  | Some x, Some y => x <= y
  end.

(** ** Python and SQL text primitives *)

Definition ascii_code (c : ascii) : Z := Z.of_N (N_of_ascii c).

Definition is_digit (c : ascii) : bool :=
  (48 <=? ascii_code c) && (ascii_code c <=? 57).

(** The characters [int()] skips around a number: tab, LF, VT, FF, CR,
    the separators 0x1c-0x1f and the space. *)
Definition is_space (c : ascii) : bool :=
  let n := ascii_code c in
  ((9 <=? n) && (n <=? 13)) || ((28 <=? n) && (n <=? 32)).

(** ASCII case folding, as SQLite's LIKE does it. *)
Definition upper (c : ascii) : ascii :=
  let n := ascii_code c in
  if (97 <=? n) && (n <=? 122) then ascii_of_N (Z.to_N (n - 32)) else c.

(** [s LIKE pattern]: [%] stands for any run of characters, [_] for any one
    character, every other character for itself up to ASCII case. *)
Fixpoint sql_like (pattern : string) : string -> bool :=
  match pattern with
  | EmptyString => fun s => match s with EmptyString => true | _ => false end
  | String p pattern' =>
      if Ascii.eqb p "%" then
        fix star (s : string) : bool :=
          sql_like pattern' s ||
          match s with
          | EmptyString => false
          | String _ s' => star s'
          end
      else if Ascii.eqb p "_" then
        fun s => match s with
                 | EmptyString => false
                 | String _ s' => sql_like pattern' s'
                 end
      else
        fun s => match s with
                 | EmptyString => false
                 | String c s' => Ascii.eqb (upper p) (upper c) && sql_like pattern' s'
                 end
  end.

(** [ORDER BY field DESC LIMIT 1] under the BINARY collation: the greatest
    value in byte order, if there is a row at all. *)
Definition greatest (l : list string) : option string :=
  fold_right (fun s acc =>
                match acc with
                | None => Some s
                | Some b => match String.compare s b with
                            | Gt => Some s
                            | _ => Some b
                            end
                end) None l.

(** [s[-4:]] *)
Definition last4 (s : string) : string :=
  substring (String.length s - 4) 4 s.

Fixpoint lstrip (s : string) : string :=
  match s with
  | EmptyString => EmptyString
  | String c s' => if is_space c then lstrip s' else s
  end.

Fixpoint rstrip (s : string) : string :=
  match s with
  | EmptyString => EmptyString
  | String c s' =>
      match rstrip s' with
      | EmptyString => if is_space c then EmptyString else String c EmptyString
      | r => String c r
      end
  end.

(** Digits with single underscores between them. *)
Fixpoint int_body (s : string) (acc : Z) (after_digit : bool) : option Z :=
  match s with
  | EmptyString => if after_digit then Some acc else None
  | String c s' =>
      if is_digit c then int_body s' (10 * acc + (ascii_code c - 48)) true
      else if Ascii.eqb c "_" then
        if after_digit then int_body s' acc false else None
      else None
  end.

(** [int(s)]; [None] stands for [ValueError]. *)
Definition py_int (s : string) : option Z :=
  match rstrip (lstrip s) with
  | String c s' =>
      if Ascii.eqb c "-" then option_map Z.opp (int_body s' 0 false)
      else if Ascii.eqb c "+" then int_body s' 0 false
      else int_body (String c s') 0 false
  | EmptyString => None
  end.

(** [str(n)] for an integer. *)
Definition py_str (n : Z) : string := NilZero.string_of_int (Z.to_int n).

Fixpoint zeros (n : nat) : string :=
  match n with
  | O => EmptyString
  | S n' => String "0" (zeros n')
  end.

(** [f"{n:04d}"]: zero padding to width four, the sign counted in the
    width and written first. *)
Definition format_04d (n : Z) : string :=
  let d := py_str (Z.abs n) in
  if n <? 0 then String "-" (zeros (3 - String.length d) ++ d)
  else zeros (4 - String.length d) ++ d.

(** ** DatabaseController *)

Module DatabaseController.

(** [generate_number(prefix, table, field)]. The (table, field) pair is
    given by [column], the values that column holds; [date_str] is
    [datetime.now().strftime("%Y%m%d")]. *)
Definition generate_number (prefix date_str : string) (column : list string) : string :=
  let result :=
    greatest (List.filter (sql_like (prefix ++ date_str ++ "%")) column) in
  let sequence :=
    match result with
    | Some last_number =>
        match py_int (last4 last_number) with
        | Some n => n + 1
        | None => 1
        end
    | None => 1
    end in
  prefix ++ date_str ++ format_04d sequence.

(** A row of [settings] without its key. [key] is TEXT UNIQUE NOT NULL and
    the row ids are never read, so the table is a finite map from the key
    to the rest of the row. *)
Record SettingRow := mkSettingRow {
  s_value : option string;
  s_description : option string
}.

(** [get_setting(key, default)] *)
Definition get_setting (key : string) (default : option string)
    (settings : gmap string SettingRow) : option string :=
  match settings !! key with
  | Some row => s_value row
  | None => default
  end.

(** [set_setting(key, value, description)]: INSERT OR REPLACE, with the
    description column only when a non-empty description is given. *)
Definition set_setting (key : string) (value description : option string)
    (settings : gmap string SettingRow) : bool * gmap string SettingRow :=
  match description with
  | Some (String c d) =>
      (true, <[key := mkSettingRow value (Some (String c d))]> settings)
  | _ => (true, <[key := mkSettingRow value None]> settings)
  end.

(** One [INSERT OR IGNORE INTO settings (key, value, description)]. *)
Definition insert_or_ignore (settings : gmap string SettingRow)
    (entry : string * string * string) : gmap string SettingRow :=
  let '(key, value, description) := entry in
  match settings !! key with
  | Some _ => settings
  | None => <[key := mkSettingRow (Some value) (Some description)]> settings
  end.

Definition default_categories : list (string * string * string) :=
  [("product_category", "Elektronik", "Kategori produk elektronik");
   ("product_category", "Fashion", "Kategori produk fashion");
   ("product_category", "Makanan", "Kategori produk makanan");
   ("product_category", "Jasa", "Kategori produk jasa")]%string.

Definition default_settings : list (string * string * string) :=
  [("company_name", "Your Company Name", "Nama perusahaan");
   ("company_address", "Company Address", "Alamat perusahaan");
   ("company_phone", "+62 123 456 789", "Nomor telepon perusahaan");
   ("company_email", "company@email.com", "Email perusahaan");
   ("currency", "IDR", "Mata uang");
   ("tax_rate", "10", "Persentase pajak");
   ("invoice_prefix", "INV", "Prefix nomor invoice");
   ("order_prefix", "ORD", "Prefix nomor order")]%string.

(** [insert_default_data(cursor)]: the two [executemany] calls. *)
Definition insert_default_data (settings : gmap string SettingRow)
  : gmap string SettingRow :=
  foldl insert_or_ignore (foldl insert_or_ignore settings default_categories)
        default_settings.

End DatabaseController.

(** ** Product ([src/models/product.py]) *)

Module Product.

(** [Product(...)]: the constructor leaves [name] and [price] at [None]
    unless they are given. *)
Record t := mk {
  id : option Z;
  name : option string;
  price : option Z;
  stock : option Z
}.

Definition set_stock (v : option Z) (self : t) : t :=
  mk (id self) (name self) (price self) v.

Definition row_set_stock (v : option Z) (r : ProductRow) : ProductRow :=
  mkProductRow (p_name r) (p_price r) v.

(** [Product.get_by_id(product_id)] *)
Definition get_by_id (product_id : Z) (db : Db) : option t :=
  match rows (products db) !! product_id with
  | Some data =>
      Some (mk (Some product_id) (Some (p_name data)) (Some (p_price data)) (p_stock data))
  | None => None
  end.

(** [product.update_stock(quantity)]. With a stock of [None] the sum
    raises TypeError; with a new stock or an id outside 64 bits the UPDATE
    raises OverflowError. Either way the method answers [False], nothing is
    written and the object keeps its stock. *)
Definition update_stock (self : t) (quantity : Z) (db : Db) : bool * t * Db :=
  match id self with
  | None => (false, self, db)
  | Some pid =>
      match stock self with
      | None => (false, self, db)
      | Some old_stock =>
          let new_stock := old_stock + quantity in
          if int64 new_stock && int64 pid then
            let db :=
              with_products (update_row (row_set_stock (Some new_stock)) pid (products db)) db in
            (true, set_stock (Some new_stock) self, db)
          else (false, self, db)
      end
  end.

(** The object the queries build from a stored row. *)
Definition of_row (product_id : Z) (data : ProductRow) : t :=
  mk (Some product_id) (Some (p_name data)) (Some (p_price data)) (p_stock data).

(** [product.save()]. A price, stock or id outside 64 bits cannot be bound
    (OverflowError); a missing name or price breaks NOT NULL on the row
    that is inserted or updated (IntegrityError). In both cases [save]
    answers [False] and nothing is written. An UPDATE that finds no row
    checks no constraint. *)
Definition save (self : t) (db : Db) : bool * t * Db :=
  if bindable (price self) && bindable (stock self) then
    match id self with
    | None =>
        match name self, price self with
        | Some n, Some p =>
            let '(tbl, new_id) := insert_row (mkProductRow n p (stock self)) (products db) in
            (true, mk (Some new_id) (name self) (price self) (stock self),
             with_products tbl db)
        | _, _ => (false, self, db)
        end
    | Some pid =>
        if int64 pid then
          match rows (products db) !! pid with
          | None => (true, self, db)
          | Some _ =>
              match name self, price self with
              | Some n, Some p =>
                  (true, self,
                   with_products
                     (update_row (fun _ => mkProductRow n p (stock self)) pid (products db)) db)
              | _, _ => (false, self, db)
              end
          end
        else (false, self, db)
    end
  else (false, self, db).

(** [product.delete()] *)
Definition delete (self : t) (db : Db) : bool * t * Db :=
  match id self with
  | None => (false, self, db)
  | Some pid => (true, self, with_products (delete_row pid (products db)) db)
  end.

Definition by_stock (a b : Z * ProductRow) : Prop :=
  null_first_le (p_stock a.2) (p_stock b.2).

#[global] Instance by_stock_dec (a b : Z * ProductRow) : Decision (by_stock a b).
Proof.
  unfold by_stock, null_first_le.
  destruct (p_stock a.2), (p_stock b.2); apply _.
Defined.



(** Byte order on names, as [ORDER BY name] compares them. *)
Definition by_name (a b : Z * ProductRow) : Prop :=
  String.leb (p_name a.2) (p_name b.2) = true.

#[global] Instance by_name_dec (a b : Z * ProductRow) : Decision (by_name a b) :=
  decide (String.leb (p_name a.2) (p_name b.2) = true).

(** [Product.get_all()]: [ORDER BY name] (equal names: as for
    [get_low_stock]). *)
Definition get_all (db : Db) : list t :=
  map (fun kv => of_row kv.1 kv.2)
      (merge_sort by_name (map_to_list (rows (products db)))).

End Product.

(** ** Order ([src/models/order.py]) *)

Module Order.

Record t := mk {
  id : option Z;
  order_number : option string;
  customer_id : option Z;
  status : string;
  total_amount : Z;
  paid_amount : Z;
  notes : option string
}.

(** [Order(customer_id=..., notes=...)] with the constructor's defaults. *)
Definition new (customer_id : option Z) (notes : option string) : t :=
  mk None None customer_id "pending" 0 0 notes.

Definition set_id (v : option Z) (self : t) : t :=
  mk v (order_number self) (customer_id self) (status self)
     (total_amount self) (paid_amount self) (notes self).
Definition set_order_number (v : option string) (self : t) : t :=
  mk (id self) v (customer_id self) (status self)
     (total_amount self) (paid_amount self) (notes self).
Definition set_status (v : string) (self : t) : t :=
  mk (id self) (order_number self) (customer_id self) v
     (total_amount self) (paid_amount self) (notes self).
Definition set_total_amount (v : Z) (self : t) : t :=
  mk (id self) (order_number self) (customer_id self) (status self)
     v (paid_amount self) (notes self).
Definition set_paid_amount (v : Z) (self : t) : t :=
  mk (id self) (order_number self) (customer_id self) (status self)
     (total_amount self) v (notes self).

Definition row_set_status (v : string) (r : OrderRow) : OrderRow :=
  mkOrderRow (r_order_number r) (r_customer_id r) v
             (r_total_amount r) (r_paid_amount r) (r_notes r).
Definition row_set_total_amount (v : Z) (r : OrderRow) : OrderRow :=
  mkOrderRow (r_order_number r) (r_customer_id r) (r_status r)
             v (r_paid_amount r) (r_notes r).
Definition row_set_paid_amount (v : Z) (r : OrderRow) : OrderRow :=
  mkOrderRow (r_order_number r) (r_customer_id r) (r_status r)
             (r_total_amount r) v (r_notes r).

(** Values of [orders.order_number], for the number generator and the
    UNIQUE constraint. *)
Definition order_numbers (m : gmap Z OrderRow) : list string :=
  map (fun kv => r_order_number kv.2) (map_to_list m).

Definition number_taken (n : string) (m : gmap Z OrderRow) : bool :=
  existsb (String.eqb n) (order_numbers m).

(** [order.save()]; [today] is the date the number generator reads from the
    clock. An insert or update that would break UNIQUE or NOT NULL on
    [order_number] raises inside [execute_query], and [save] answers
    [False]. *)
Definition save (self : t) (today : string) (db : Db) : bool * t * Db :=
  match id self with
  | None =>
      let self :=
        match order_number self with
        | None | Some EmptyString =>
            set_order_number
              (Some (DatabaseController.generate_number "ORD" today
                       (order_numbers (rows (orders db))))) self
        | Some _ => self
        end in
      match order_number self with
      | Some n =>
          if number_taken n (rows (orders db)) then (false, self, db)
          else
            let '(tbl, new_id) :=
              insert_row (mkOrderRow n (customer_id self) (status self)
                            (total_amount self) (paid_amount self) (notes self))
                         (orders db) in
            (true, set_id (Some new_id) self, with_orders tbl db)
      | None => (false, self, db)
      end
  | Some oid =>
      match rows (orders db) !! oid with
      | None => (true, self, db)
      | Some _ =>
          match order_number self with
          | None => (false, self, db)
          | Some n =>
              if number_taken n (delete oid (rows (orders db))) then (false, self, db)
              else
                let row := mkOrderRow n (customer_id self) (status self)
                             (total_amount self) (paid_amount self) (notes self) in
                (true, self, with_orders (update_row (fun _ => row) oid (orders db)) db)
          end
      end
  end.

(** [Order.get_by_id(order_id)] *)
Definition get_by_id (order_id : Z) (db : Db) : option t :=
  match rows (orders db) !! order_id with
  | Some data =>
      Some (mk (Some order_id) (Some (r_order_number data)) (r_customer_id data)
               (r_status data) (r_total_amount data) (r_paid_amount data)
               (r_notes data))
  | None => None
  end.

(** [order.delete()] *)
Definition delete (self : t) (db : Db) : bool * t * Db :=
  match id self with
  | None => (false, self, db)
  | Some oid =>
      (* DELETE FROM order_items WHERE order_id = ? *)
      let items := mkTable (filter (fun kv => i_order_id kv.2 <> oid)
                                   (rows (order_items db)))
                           (seq (order_items db)) in
      let db := with_order_items items db in
      (* DELETE FROM orders WHERE id = ? *)
      let db := with_orders (delete_row oid (orders db)) db in
      (true, self, db)
  end.

(** [order.update_total()] *)
Definition update_total (self : t) (db : Db) : bool * t * Db :=
  match id self with
  | None => (false, self, db)
  | Some oid =>
      let total := items_sum oid (rows (order_items db)) in
      let self := set_total_amount total self in
      let db := with_orders (update_row (row_set_total_amount total) oid (orders db)) db in
      (true, self, db)
  end.

(** [order.add_item(product_id, quantity, price)]; the result is the new
    item's id, or [None] for [False]. The INSERT binds the order's id, the
    product id, the quantity, the price and the line total: one of them
    outside 64 bits makes it raise OverflowError, and [add_item] answers
    [False] with nothing written. Once the line is stored nothing raises any
    more: [update_total], [Product.get_by_id] and [update_stock] catch
    their own errors, and the answer of [update_stock] is not looked at. *)
Definition add_item (self : t) (product_id quantity price : Z) (db : Db)
  : option Z * t * Db :=
  match id self with
  | None => (None, self, db)
  | Some oid =>
      let total := quantity * price in
      if int64 oid && int64 product_id && int64 quantity && int64 price && int64 total then
        let '(items, item_id) :=
          insert_row (mkItemRow oid product_id quantity price total) (order_items db) in
        let db := with_order_items items db in
        (* Update order total *)
        let '(_, self, db) := update_total self db in
        (* Update product stock *)
        let db :=
          match Product.get_by_id product_id db with
          | Some product =>
              let '(_, _, db) := Product.update_stock product (- quantity) db in db
          | None => db
          end in
        (Some item_id, self, db)
      else (None, self, db)
  end.

(** [order.remove_item(item_id)] *)
Definition remove_item (self : t) (item_id : Z) (db : Db) : bool * t * Db :=
  match id self with
  | None => (false, self, db)
  | Some _ =>
      match rows (order_items db) !! item_id with
      | Some item =>
          (* Restore product stock *)
          let db :=
            match Product.get_by_id (i_product_id item) db with
            | Some product =>
                let '(_, _, db) := Product.update_stock product (i_quantity item) db in db
            | None => db
            end in
          (* Delete item *)
          let db := with_order_items (delete_row item_id (order_items db)) db in
          (* Update order total *)
          let '(_, self, db) := update_total self db in
          (true, self, db)
      | None => (false, self, db)
      end
  end.

Definition py_str_opt_id (v : option Z) : string :=
  match v with Some n => py_str n | None => "None" end.
Definition py_str_opt (v : option string) : string :=
  match v with Some s => s | None => "None" end.

(** [order.record_payment(amount, payment_method)]. An amount outside
    64 bits cannot be bound: the INSERT raises OverflowError, no row is
    written and the method answers [False]. *)
Definition record_payment (self : t) (amount : Z) (payment_method : string) (db : Db)
  : bool * t * Db :=
  if int64 amount then
    let row := mkFinRow "income" "payment" amount
                 ("Payment for order " ++ py_str_opt (order_number self))
                 (py_str_opt_id (id self)) "order" payment_method in
    let '(tbl, _) := insert_row row (financial_transactions db) in
    (true, self, with_financial_transactions tbl db)
  else (false, self, db).

(** [order.add_payment(amount, payment_method)]. The first UPDATE binds the
    new paid amount and the order's id: one of them outside 64 bits makes it
    raise OverflowError before the object is touched, and [add_payment]
    answers [False]. The answer of [record_payment] is not looked at. *)
Definition add_payment (self : t) (amount : Z) (payment_method : string) (db : Db)
  : bool * t * Db :=
  match id self with
  | None => (false, self, db)
  | Some oid =>
      let new_paid_amount := paid_amount self + amount in
      if int64 new_paid_amount && int64 oid then
        let db :=
          with_orders (update_row (row_set_paid_amount new_paid_amount) oid (orders db)) db in
        let self := set_paid_amount new_paid_amount self in
        (* Update status if fully paid *)
        let '(self, db) :=
          if total_amount self <=? paid_amount self then
            let self := set_status "paid" self in
            (self, with_orders (update_row (row_set_status (status self)) oid (orders db)) db)
          else (self, db) in
        (* Record financial transaction *)
        let '(_, self, db) := record_payment self amount payment_method db in
        (true, self, db)
      else (false, self, db)
  end.

(** The object the queries build from a stored row. *)
Definition of_row (order_id : Z) (data : OrderRow) : t :=
  mk (Some order_id) (Some (r_order_number data)) (r_customer_id data)
     (r_status data) (r_total_amount data) (r_paid_amount data) (r_notes data).

(** [SELECT * FROM orders WHERE ...] turned into objects. The order of the
    answer ([ORDER BY order_date DESC]) is not modelled, the date columns
    being left out; the statements about these queries speak of membership
    only. *)
Definition select (cond : OrderRow -> bool) (db : Db) : list t :=
  map (fun kv => of_row kv.1 kv.2)
      (List.filter (fun kv => cond kv.2) (map_to_list (rows (orders db)))).


(** [Order.get_all()] *)
Definition get_all (db : Db) : list t := select (fun _ => true) db.

(** [Order.get_by_status(status)] *)
Definition get_by_status (status : string) (db : Db) : list t :=
  select (fun r => String.eqb (r_status r) status) db.

(** [Order.get_unpaid()]: [WHERE paid_amount < total_amount]. *)
Definition get_unpaid (db : Db) : list t :=
  select (fun r => r_paid_amount r <? r_total_amount r) db.

(** [order.to_dict()['remaining_amount']] *)
Definition remaining_amount (self : t) : Z := total_amount self - paid_amount self.

(** A row of [get_items]: the line with its id and the joined product
    name ([None] where the LEFT JOIN finds no product). The joined
    [product_unit] goes with the [unit] column, which is left out. *)
Record ItemView := mkItemView {
  v_id : Z;
  v_line : ItemRow;
  v_product_name : option string
}.

Definition by_id (a b : Z * ItemRow) : Prop := a.1 <= b.1.

#[global] Instance by_id_dec (a b : Z * ItemRow) : Decision (by_id a b) :=
  decide (a.1 <= b.1).

Definition view (db : Db) (kv : Z * ItemRow) : ItemView :=
  mkItemView kv.1 kv.2 (p_name <$> rows (products db) !! i_product_id kv.2).

(** [order.get_items()]: the order's lines, [ORDER BY oi.id]. *)
Definition get_items (self : t) (db : Db) : list ItemView :=
  match id self with
  | None => []
  | Some oid =>
      map (view db)
          (merge_sort by_id
             (List.filter (fun kv => i_order_id kv.2 =? oid)
                          (map_to_list (rows (order_items db)))))
  end.

End Order.

(** ** Customer ([src/models/customer.py]) *)

Module Customer.

(** A row of [customers]; [name] is TEXT NOT NULL. The methods of this
    class touch no other table, so they are given the table itself. *)
Record Row := mkRow {
  c_name : string;
  c_phone : option string;
  c_email : option string;
  c_address : option string
}.

Record t := mk {
  id : option Z;
  name : option string;
  phone : option string;
  email : option string;
  address : option string
}.

Definition of_row (customer_id : Z) (data : Row) : t :=
  mk (Some customer_id) (Some (c_name data)) (c_phone data) (c_email data)
     (c_address data).

(** [customer.save()]; a missing name breaks NOT NULL, the statement
    raises and [save] answers [False]. *)
Definition save (self : t) (customers : Table Row) : bool * t * Table Row :=
  match id self with
  | None =>
      match name self with
      | None => (false, self, customers)
      | Some n =>
          let '(tbl, new_id) :=
            insert_row (mkRow n (phone self) (email self) (address self)) customers in
          (true, mk (Some new_id) (name self) (phone self) (email self) (address self), tbl)
      end
  | Some cid =>
      match rows customers !! cid with
      | None => (true, self, customers)
      | Some _ =>
          match name self with
          | None => (false, self, customers)
          | Some n =>
              (true, self,
               update_row (fun _ => mkRow n (phone self) (email self) (address self))
                          cid customers)
          end
      end
  end.

(** [customer.delete()] *)
Definition delete (self : t) (customers : Table Row) : bool * t * Table Row :=
  match id self with
  | None => (false, self, customers)
  | Some cid => (true, self, delete_row cid customers)
  end.

(** [Customer.get_by_id(customer_id)] *)
Definition get_by_id (customer_id : Z) (customers : Table Row) : option t :=
  of_row customer_id <$> rows customers !! customer_id.

(** [column LIKE pattern] for a column that may be NULL: NULL matches
    nothing. *)
Definition like_opt (pattern : string) (v : option string) : bool :=
  match v with
  | Some s => sql_like pattern s
  | None => false
  end.

Definition by_name (a b : Z * Row) : Prop :=
  String.leb (c_name a.2) (c_name b.2) = true.

#[global] Instance by_name_dec (a b : Z * Row) : Decision (by_name a b) :=
  decide (String.leb (c_name a.2) (c_name b.2) = true).

(** [Customer.search(keyword)]:
    [WHERE name LIKE ? OR phone LIKE ? OR email LIKE ? ORDER BY name] with
    the pattern [%keyword%]. Customers of equal name come in the order
    merge sort gives; SQL leaves it open. *)
Definition search (keyword : string) (customers : Table Row) : list t :=
  let search_term := ("%" ++ keyword ++ "%")%string in
  map (fun kv => of_row kv.1 kv.2)
      (merge_sort by_name
         (List.filter
            (fun kv => sql_like search_term (c_name kv.2)
                       || like_opt search_term (c_phone kv.2)
                       || like_opt search_term (c_email kv.2))
            (map_to_list (rows customers)))).

(** [Customer.get_all()]: [ORDER BY name]. *)
Definition get_all (customers : Table Row) : list t :=
  map (fun kv => of_row kv.1 kv.2) (merge_sort by_name (map_to_list (rows customers))).

End Customer.

(** ** LicenseController ([src/controllers/license_controller_fixed.py]) *)

Module LicenseController.

(** ASCII lower case, as [str.lower] on ASCII text. *)
Definition lower (c : ascii) : ascii :=
  let n := ascii_code c in
  if (65 <=? n) && (n <=? 90) then ascii_of_N (Z.to_N (n + 32)) else c.

Fixpoint str_lower (s : string) : string :=
  match s with
  | EmptyString => EmptyString
  | String c s' => String (lower c) (str_lower s')
  end.

Fixpoint str_upper (s : string) : string :=
  match s with
  | EmptyString => EmptyString
  | String c s' => String (upper c) (str_upper s')
  end.

(** [s.replace('-', '')] *)
Fixpoint remove_dashes (s : string) : string :=
  match s with
  | EmptyString => EmptyString
  | String c s' => if Ascii.eqb c "-" then remove_dashes s' else String c (remove_dashes s')
  end.

Definition demo_keys : list string :=
  ["DEMO-KEY-1234-5678"; "BUSINESS-APP-2024-PRO"; "PREMIUM-LIFETIME-2024";
   "TEST-DEV-2024-KEY"; "EDUCATION-FREE-2024"; "ENTERPRISE-BUS-2024"]%string.

(** A [hexdigest()] of SHA-256: 64 characters among [0-9a-f]. *)
Definition is_hex (c : ascii) : bool :=
  is_digit c || ((97 <=? ascii_code c) && (ascii_code c <=? 102)).

Fixpoint all_hex (s : string) : bool :=
  match s with
  | EmptyString => true
  | String c s' => is_hex c && all_hex s'
  end.

Definition hex_digest (s : string) : bool :=
  Nat.eqb (String.length s) 64 && all_hex s.

(** What [save_license] leaves behind: the key in the configuration and the
    key in the license file (no file: [None]). *)
Record Stored := mkStored {
  config_license_key : string;
  license_file : option string
}.

Section Hash.

(** [hashlib.sha256(text.encode()).hexdigest()], taken as given. *)
Variable sha256_hexdigest : string -> string.

(** The answer of [get_hardware_id()] on the machine at hand. *)
Variable hardware_id : string.

(** [validate_license_key(license_key)] *)
Definition validate_license_key (license_key : string) : bool :=
  if negb (Nat.eqb (String.length license_key) 19) then false
  else
    let clean_key := str_lower (remove_dashes license_key) in
    let expected_signature := sha256_hexdigest hardware_id in
    if String.eqb clean_key (substring 0 16 expected_signature) then true
    else existsb (String.eqb license_key) demo_keys.

(** [generate_license_key(hardware_id, days)]['license_key']; the two
    dates are [datetime.now().isoformat()] and the expiry's. *)
Definition generate_license_key (for_hardware_id created_date expiry_date : string) : string :=
  let signature := sha256_hexdigest (for_hardware_id ++ created_date ++ expiry_date) in
  str_upper (substring 0 4 signature ++ "-" ++ substring 4 4 signature ++ "-" ++
             substring 8 4 signature ++ "-" ++ substring 12 4 signature).

(** [save_license(license_key, ...)] *)
Definition save_license (license_key : string) (st : Stored) : bool * Stored :=
  (true, mkStored license_key (Some license_key)).

(** [remove_license()] *)
Definition remove_license (st : Stored) : bool * Stored :=
  (true, mkStored "" None).

(** [create_demo_license()] *)
Definition create_demo_license (st : Stored) : option string * Stored :=
  let demo_key := "DEMO-KEY-1234-5678"%string in
  let '(ok, st') := save_license demo_key st in
  if ok then (Some demo_key, st') else (None, st').

(** [is_licensed()] *)
Definition is_licensed (st : Stored) : bool :=
  let license_key := config_license_key st in
  if negb (String.eqb license_key "") && validate_license_key license_key then true
  else
    match license_file st with
    | Some k => validate_license_key k
    | None => false
    end.

End Hash.

End LicenseController.

(** ** Config ([src/utils/config.py]) *)

Module Config.

(** A JSON value as [get] and [set] see it: a dict (its items in insertion
    order) or anything else (text, number, boolean, null, list), which is
    kept as an opaque payload. *)
#[warnings="-register-all"]
Inductive json :=
| JDict (items : list (string * json))
| JOther (payload : string).

(** [d.get(k)], [k in d] *)
Fixpoint lookup (k : string) (items : list (string * json)) : option json :=
  match items with
  | [] => None
  | (k', v) :: rest => if String.eqb k k' then Some v else lookup k rest
  end.

(** [d[k] = v]: in place when the key is there, at the end otherwise. *)
Fixpoint assign (k : string) (v : json) (items : list (string * json))
  : list (string * json) :=
  match items with
  | [] => [(k, v)]
  | (k', v') :: rest =>
      if String.eqb k k' then (k, v) :: rest else (k', v') :: assign k v rest
  end.

(** [key.split('.')] *)
Fixpoint split_dot (s : string) : list string :=
  match s with
  | EmptyString => [EmptyString]
  | String c s' =>
      if Ascii.eqb c "." then EmptyString :: split_dot s'
      else match split_dot s' with
           | h :: t => String c h :: t
           | [] => [String c EmptyString]
           end
  end.

(** The loop of [get]: [None] where the code returns the default. *)
Fixpoint get_path (keys : list string) (value : json) : option json :=
  match keys with
  | [] => Some value
  | k :: keys' =>
      match value with
      | JDict items =>
          match lookup k items with
          | Some v => get_path keys' v
          | None => None
          end
      | JOther _ => None
      end
  end.

(** [config.get(key, default)] *)
Definition get (key : string) (default : json) (config : json) : json :=
  match get_path (split_dot key) config with
  | Some v => v
  | None => default
  end.

(** The loop and the final assignment of [set]. Reaching something that
    is not a dict raises TypeError ([None]); that can only happen before
    anything was changed. *)
Fixpoint set_path (keys : list string) (value : json) (config : json) : option json :=
  match config with
  | JOther _ => None
  | JDict items =>
      match keys with
      | [] => None
      | [k] => Some (JDict (assign k value items))
      | k :: keys' =>
          let child := match lookup k items with
                       | Some c => c
                       | None => JDict []
                       end in
          match set_path keys' value child with
          | Some child' => Some (JDict (assign k child' items))
          | None => None
          end
      end
  end.

(** [config.set(key, value)]: the configuration afterwards, which is also
    what [save_config] writes; [None] when the call raises. *)
Definition set (key : string) (value : json) (config : json) : option json :=
  set_path (split_dot key) value config.

(** The merge of [load_config]: every top-level key of the defaults that
    the file lacks is added with the default value. *)
Definition merge_defaults (default_config : list (string * json))
    (config : list (string * json)) : list (string * json) :=
  foldl (fun cfg kv => match lookup kv.1 cfg with
                       | Some _ => cfg
                       | None => assign kv.1 kv.2 cfg
                       end)
        config default_config.

End Config.

(** ** The status rule of the specification, for comparison *)

(** Written from the specification's words (section 4.3), not from the
    source: the source has no such function. *)
Definition derive_status (total_amount paid_amount : Z) : string :=
  if paid_amount <=? 0 then "unpaid"
  else if paid_amount <? total_amount then "partial"
  else "paid".

(** ** Vocabulary of the statements *)

Definition line (oid product_id quantity price : Z) : ItemRow :=
  mkItemRow oid product_id quantity price (quantity * price).

(** Arguments with which the INSERT of [add_item] stores what it is
    given: ids and a quantity that can be bound, a price and a line total
    that a REAL column holds exactly. *)
Definition line_ok (oid product_id quantity price : Z) : Prop :=
  int64 oid = true /\ int64 product_id = true /\ int64 quantity = true /\
  real_exact price = true /\ real_exact (quantity * price) = true.

(** The parameters of [add_item]'s INSERT can all be bound. *)
Definition add_item_binds (oid product_id quantity price : Z) : bool :=
  int64 oid && int64 product_id && int64 quantity && int64 price &&
  int64 (quantity * price).

(** A stock column after [update_stock] was asked to add [quantity] to it:
    nothing changes when the stock is NULL or the sum cannot be bound. *)
Definition stock_step (quantity : Z) (stock : option Z) : option Z :=
  match stock with
  | Some s => if int64 (s + quantity) then Some (s + quantity) else Some s
  | None => None
  end.

(** The product table after [add_item]'s stock step. *)
Definition sold (product_id quantity : Z) (t : Table ProductRow) : Table ProductRow :=
  match rows t !! product_id with
  | Some r =>
      match p_stock r with
      | Some s =>
          if int64 (s + - quantity) && int64 product_id
          then update_row (Product.row_set_stock (Some (s + - quantity))) product_id t
          else t
      | None => t
      end
  | None => t
  end.

(** The ledger row [record_payment] writes for the order of id [oid]. *)
Definition payment_row (o : Order.t) (oid amount : Z) (method : string) : FinRow :=
  mkFinRow "income" "payment" amount
           ("Payment for order " ++ Order.py_str_opt (Order.order_number o))
           (py_str oid) "order" method.

(** The ledger after [record_payment]. *)
Definition posted (row : FinRow) (t : Table FinRow) : Table FinRow :=
  if int64 (f_amount row) then (insert_row row t).1 else t.

Inductive operation :=
| add_line (o : Order.t) (product_id quantity price : Z)
| remove_line (o : Order.t) (item_id : Z)
| add_payment (o : Order.t) (amount : Z) (method : string)
| delete_order (o : Order.t).

(** The store after one operation; the object may be any handle on an
    order, fresh or stale. *)
Definition run_operation (c : operation) (db : Db) : Db :=
  match c with
  | add_line o product_id quantity price => (Order.add_item o product_id quantity price db).2
  | remove_line o item_id => (Order.remove_item o item_id db).2
  | add_payment o amount method => (Order.add_payment o amount method db).2
  | delete_order o => (Order.delete o db).2
  end.

Fixpoint run (l : list operation) (db : Db) : Db :=
  match l with
  | [] => db
  | c :: l' => run l' (run_operation c db)
  end.





(** [f] holds of 0, ..., n-1. *)
Fixpoint below (n : nat) (f : Z -> bool) : bool :=
  match n with
  | O => true
  | S n' => f (Z.of_nat n') && below n' f
  end.

(** What the generator relies on for one sequence value: it prints as four
    characters, reads back as itself, and prints below its successor in
    byte order. *)
Definition four_digit_ok (n : Z) : bool :=
  Nat.eqb (String.length (format_04d n)) 4 &&
  match py_int (format_04d n) with
  | Some k => k =? n
  | None => false
  end &&
  ((n =? 9999) ||
   match String.compare (format_04d n) (format_04d (n + 1)) with
   | Lt => true
   | _ => false
   end).

(** The number of sequence [n] for a prefix and a date. *)
Definition number (prefix date_str : string) (n : Z) : string :=
  (prefix ++ date_str ++ format_04d n)%string.

(** Every stored number the generator looks at for this prefix and date is
    the prefix, the date and a sequence of four digits. *)
Definition four_digit_numbers (prefix date_str : string) (column : list string) : Prop :=
  forall s, In s column -> sql_like (prefix ++ date_str ++ "%") s = true ->
            exists n, 0 <= n <= 9999 /\ s = number prefix date_str n.

(** [n] numbers generated one after the other, each stored before the next
    is generated. *)
Fixpoint issue (prefix date_str : string) (n : nat) (column : list string) : list string :=
  match n with
  | O => column
  | S n' =>
      let column' := issue prefix date_str n' column in
      DatabaseController.generate_number prefix date_str column' :: column'
  end.

(** What the order operations may do to a stored order besides its
    amounts: nothing, except turning the status into ['paid']. *)
Definition row_evolves (r r' : OrderRow) : Prop :=
  r_order_number r' = r_order_number r /\
  r_customer_id r' = r_customer_id r /\
  r_notes r' = r_notes r /\
  (r_status r' = r_status r \/ r_status r' = "paid"%string).


(** ** Sample stores and runs *)

Definition empty_table {A} : Table A := mkTable ∅ 0.

Definition db0 : Db :=
  mkDb (mkTable (<[1 := mkProductRow "Laptop" 15000000 (Some 10)]> ∅) 1)
       empty_table empty_table empty_table.

(** A freshly created order in [db0]. *)
Definition created : Order.t * Db :=
  let '(_, o, db) := Order.save (Order.new None None) "20240101" db0 in (o, db).

(** Scenario A as the code runs it. *)
Definition scenario_A : option Z * Order.t * Db :=
  let '(_, o, db) := Order.save (Order.new None None) "20240101" db0 in
  Order.add_item o 1 2 15000000 db.


Example sample_generate_number_first :
  DatabaseController.generate_number "ORD" "20240101" [] = "ORD202401010001"%string.
Proof. reflexivity. Qed.

Example sample_generate_number_next :
  DatabaseController.generate_number "ORD" "20240101"
    ["ORD202401010002"; "INV202401010009"; "ORD202401010007"; "ORD202312310042"]%string
  = "ORD202401010008"%string.
Proof. vm_compute. reflexivity. Qed.

Example py_int_samples :
  map py_int [" 12 "; "-7"; "1_0"; "1__0"; "_1"; "12a"; ""; "+"; "0042"]%string
  = [Some 12; Some (-7); Some 10; None; None; None; None; None; Some 42].
Proof. vm_compute. reflexivity. Qed.

Example format_04d_samples :
  map format_04d [1; 42; 9999; 10000; -5; 0]
  = ["0001"; "0042"; "9999"; "10000"; "-005"; "0000"]%string.
Proof. vm_compute. reflexivity. Qed.

Example scenario_A_result :
  let '(r, o, db) := scenario_A in
  r = Some 1 /\ Order.id o = Some 1 /\
  Order.order_number o = Some "ORD202401010001"%string /\
  Order.total_amount o = 30000000 /\
  Order.status o = "pending"%string /\
  rows (orders db) !! 1 =
    Some (mkOrderRow "ORD202401010001" None "pending" 30000000 0 None) /\
  rows (products db) !! 1 = Some (mkProductRow "Laptop" 15000000 (Some 8)).
Proof. vm_compute. repeat split; reflexivity. Qed.

(** ** Tables: fresh ids and sums *)

Lemma max_key_ge {A} (m : gmap Z A) (k : Z) (a : A) :
  m !! k = Some a -> k <= max_key m.
Proof.
  unfold max_key. revert k a.
  apply (map_fold_weak_ind
           (fun acc (m : gmap Z A) => forall k a, m !! k = Some a -> k <= acc)).
  - intros k a H. by rewrite lookup_empty in H.
  - intros i x m' acc Hi IH k a H.
    destruct (decide (i = k)) as [->|Hne].
    + lia.
    + rewrite lookup_insert_ne in H by done. specialize (IH k a H). lia.
Qed.

Lemma next_rowid_fresh {A} (t : Table A) : rows t !! next_rowid t = None.
Proof.
  destruct (rows t !! next_rowid t) as [a|] eqn:E; [|done].
  apply max_key_ge in E. unfold next_rowid in E. lia.
Qed.

Lemma sum_step_comm (o j1 j2 : Z) (z1 z2 : ItemRow) (y : Z) :
  sum_step o j1 z1 (sum_step o j2 z2 y) = sum_step o j2 z2 (sum_step o j1 z1 y).
Proof. unfold sum_step. repeat case_match; lia. Qed.

Lemma items_sum_empty (o : Z) : items_sum o ∅ = 0.
Proof. unfold items_sum. apply map_fold_empty. Qed.

Lemma items_sum_insert (o k : Z) (it : ItemRow) (m : gmap Z ItemRow) :
  m !! k = None ->
  items_sum o (<[k:=it]> m) = sum_step o k it (items_sum o m).
Proof.
  intros H. unfold items_sum. apply map_fold_insert_L; [|done].
  intros. apply sum_step_comm.
Qed.


Lemma items_sum_other (o k : Z) (it : ItemRow) (x : Z) :
  i_order_id it <> o -> sum_step o k it x = x.
Proof. unfold sum_step. intros H. apply Z.eqb_neq in H. by rewrite H. Qed.



Lemma items_sum_filter_eq (o : Z) (m : gmap Z ItemRow) :
  items_sum o (filter (fun kv => i_order_id kv.2 <> o) m) = 0.
Proof.
  induction m as [|k it m Hk IH] using map_ind.
  - rewrite map_filter_empty. apply items_sum_empty.
  - destruct (decide (i_order_id it = o)) as [He|Hn].
    + rewrite map_filter_insert_False by (simpl; tauto).
      by rewrite delete_id.
    + rewrite map_filter_insert_True by done.
      rewrite items_sum_insert; [|by rewrite map_lookup_filter, Hk].
      by rewrite items_sum_other.
Qed.

(** ** The methods as equations on the store *)

Lemma int64_bounds (n : Z) :
  int64 n = true <-> - 9223372036854775808 <= n < 9223372036854775808.
Proof.
  unfold int64. change (2 ^ 63) with 9223372036854775808.
  rewrite andb_true_iff, Z.leb_le, Z.ltb_lt. reflexivity.
Qed.

Lemma real_exact_bounds (n : Z) :
  real_exact n = true <-> - 9007199254740992 <= n <= 9007199254740992.
Proof.
  unfold real_exact. change (2 ^ 53) with 9007199254740992.
  rewrite andb_true_iff, !Z.leb_le. reflexivity.
Qed.

Lemma real_exact_int64 (n : Z) : real_exact n = true -> int64 n = true.
Proof. rewrite real_exact_bounds, int64_bounds. lia. Qed.

Lemma line_ok_binds (oid product_id quantity price : Z) :
  line_ok oid product_id quantity price ->
  add_item_binds oid product_id quantity price = true.
Proof.
  intros (H1 & H2 & H3 & H4 & H5). unfold add_item_binds.
  rewrite H1, H2, H3. by rewrite !real_exact_int64.
Qed.

Lemma add_item_eq (o : Order.t) (oid product_id quantity price : Z) (db : Db) :
  Order.id o = Some oid ->
  add_item_binds oid product_id quantity price = true ->
  let k := next_rowid (order_items db) in
  let items := <[k := line oid product_id quantity price]> (rows (order_items db)) in
  let total := items_sum oid items in
  Order.add_item o product_id quantity price db =
    (Some k, Order.set_total_amount total o,
     mkDb (sold product_id quantity (products db))
          (update_row (Order.row_set_total_amount total) oid (orders db))
          (mkTable items k)
          (financial_transactions db)).
Proof.
  intros Hid Hb. unfold add_item_binds in Hb.
  unfold Order.add_item, Order.update_total, Product.get_by_id, Product.update_stock, sold.
  rewrite Hid, Hb. cbn.
  destruct (rows (products db) !! product_id) as [r|]; [|reflexivity].
  cbn. destruct (p_stock r) as [s|]; [|reflexivity].
  destruct (int64 (s + - quantity) && int64 product_id); reflexivity.
Qed.

Lemma add_item_fails (o : Order.t) (oid product_id quantity price : Z) (db : Db) :
  Order.id o = Some oid ->
  add_item_binds oid product_id quantity price = false ->
  Order.add_item o product_id quantity price db = (None, o, db).
Proof.
  intros Hid Hb. unfold add_item_binds in Hb. unfold Order.add_item. by rewrite Hid, Hb.
Qed.

Lemma add_item_unsaved (o : Order.t) (product_id quantity price : Z) (db : Db) :
  Order.id o = None ->
  Order.add_item o product_id quantity price db = (None, o, db).
Proof. intros Hid. unfold Order.add_item. by rewrite Hid. Qed.


Lemma remove_item_eq (o : Order.t) (oid item_id : Z) (it : ItemRow) (db : Db) :
  Order.id o = Some oid ->
  rows (order_items db) !! item_id = Some it ->
  let items := delete item_id (rows (order_items db)) in
  let total := items_sum oid items in
  Order.remove_item o item_id db =
    (true, Order.set_total_amount total o,
     mkDb (sold (i_product_id it) (- i_quantity it) (products db))
          (update_row (Order.row_set_total_amount total) oid (orders db))
          (mkTable items (seq (order_items db)))
          (financial_transactions db)).
Proof.
  intros Hid Hit.
  unfold Order.remove_item, Order.update_total, Product.get_by_id, Product.update_stock, sold.
  rewrite Hid, Hit. cbn. rewrite Z.opp_involutive.
  destruct (rows (products db) !! i_product_id it) as [r|]; cbn; rewrite ?Hid; [|reflexivity].
  destruct (p_stock r) as [s|]; cbn; rewrite ?Hid; [|reflexivity].
  destruct (int64 (s + i_quantity it) && int64 (i_product_id it)); cbn; rewrite ?Hid;
    reflexivity.
Qed.

Lemma remove_item_missing (o : Order.t) (item_id : Z) (db : Db) :
  rows (order_items db) !! item_id = None ->
  Order.remove_item o item_id db = (false, o, db).
Proof.
  intros H. unfold Order.remove_item. rewrite H. by destruct (Order.id o).
Qed.

Lemma remove_item_unsaved (o : Order.t) (item_id : Z) (db : Db) :
  Order.id o = None ->
  Order.remove_item o item_id db = (false, o, db).
Proof. intros Hid. unfold Order.remove_item. by rewrite Hid. Qed.

Lemma add_payment_eq (o : Order.t) (oid amount : Z) (method : string) (db : Db) :
  Order.id o = Some oid ->
  int64 (Order.paid_amount o + amount) && int64 oid = true ->
  let paid := Order.paid_amount o + amount in
  let full := Order.total_amount o <=? paid in
  let o1 := Order.set_paid_amount paid o in
  let o2 := if full then Order.set_status "paid" o1 else o1 in
  let t1 := update_row (Order.row_set_paid_amount paid) oid (orders db) in
  let t2 := if full then update_row (Order.row_set_status "paid") oid t1 else t1 in
  Order.add_payment o amount method db =
    (true, o2,
     mkDb (products db) t2 (order_items db)
          (posted (payment_row o oid amount method) (financial_transactions db))).
Proof.
  intros Hid Hb. unfold Order.add_payment, Order.record_payment, posted, payment_row.
  rewrite Hid, Hb. cbn.
  destruct (Order.total_amount o <=? Order.paid_amount o + amount); cbn;
    rewrite ?Hid; destruct (int64 amount); reflexivity.
Qed.

Lemma add_payment_fails (o : Order.t) (oid amount : Z) (method : string) (db : Db) :
  Order.id o = Some oid ->
  int64 (Order.paid_amount o + amount) && int64 oid = false ->
  Order.add_payment o amount method db = (false, o, db).
Proof. intros Hid Hb. unfold Order.add_payment. by rewrite Hid, Hb. Qed.

Lemma add_payment_unsaved (o : Order.t) (amount : Z) (method : string) (db : Db) :
  Order.id o = None ->
  Order.add_payment o amount method db = (false, o, db).
Proof. intros Hid. unfold Order.add_payment. by rewrite Hid. Qed.

Lemma delete_eq (o : Order.t) (oid : Z) (db : Db) :
  Order.id o = Some oid ->
  Order.delete o db =
    (true, o,
     mkDb (products db)
          (delete_row oid (orders db))
          (mkTable (filter (fun kv => i_order_id kv.2 <> oid) (rows (order_items db)))
                   (seq (order_items db)))
          (financial_transactions db)).
Proof. intros Hid. unfold Order.delete. by rewrite Hid. Qed.

Lemma lookup_update_row {A} (f : A -> A) (k j : Z) (t : Table A) :
  rows (update_row f k t) !! j = if decide (k = j) then f <$> rows t !! k else rows t !! j.
Proof. unfold update_row. cbn. apply lookup_alter. Qed.

Lemma lookup_update_row_eq {A} (f : A -> A) (k : Z) (t : Table A) :
  rows (update_row f k t) !! k = f <$> rows t !! k.
Proof. rewrite lookup_update_row. by rewrite decide_True. Qed.

Lemma lookup_update_row_ne {A} (f : A -> A) (k j : Z) (t : Table A) :
  k <> j -> rows (update_row f k t) !! j = rows t !! j.
Proof. intros H. rewrite lookup_update_row. by rewrite decide_False. Qed.

Lemma row_set_stock_same (r : ProductRow) : Product.row_set_stock (p_stock r) r = r.
Proof. by destruct r. Qed.

(** The stock step changes the stock column of the one product, by
    [stock_step], when the product id can be bound. *)
Lemma lookup_sold (product_id quantity j : Z) (t : Table ProductRow) :
  rows (sold product_id quantity t) !! j =
    if decide (product_id = j)
    then (fun r => Product.row_set_stock
                     (if int64 product_id then stock_step (- quantity) (p_stock r)
                      else p_stock r) r) <$> rows t !! j
    else rows t !! j.
Proof.
  unfold sold, stock_step. destruct (rows t !! product_id) as [r|] eqn:E.
  - destruct (p_stock r) as [s|] eqn:Es.
    + destruct (int64 (s + - quantity)) eqn:E1, (int64 product_id) eqn:E2; cbn [andb].
      * rewrite lookup_update_row. case_decide; [subst j; rewrite E; cbn; by rewrite Es, E1|done].
      * case_decide; [subst j; rewrite E; cbn; by rewrite row_set_stock_same|done].
      * case_decide; [subst j; rewrite E; cbn; rewrite Es, E1, <- Es;
                      by rewrite row_set_stock_same|done].
      * case_decide; [subst j; rewrite E; cbn; by rewrite row_set_stock_same|done].
    + case_decide; [subst j; rewrite E; cbn; rewrite Es|done].
      destruct (int64 product_id); rewrite <- Es; by rewrite row_set_stock_same.
  - case_decide; [subst j; by rewrite E|done].
Qed.

(** ** Unsaved orders *)

(** C10. An order object that was never saved ([id] is [None]) makes
    [delete], [add_item], [remove_item], [update_total] and [add_payment]
    answer [False] at once; the object and every table of the store are
    exactly as before. *)
Theorem unsaved_order_is_inert (o : Order.t) (db : Db) :
  Order.id o = None ->
  Order.delete o db = (false, o, db) /\
  (forall product_id quantity price,
      Order.add_item o product_id quantity price db = (None, o, db)) /\
  (forall item_id, Order.remove_item o item_id db = (false, o, db)) /\
  Order.update_total o db = (false, o, db) /\
  (forall amount method, Order.add_payment o amount method db = (false, o, db)).
Proof.
  intros H. unfold Order.delete, Order.add_item, Order.remove_item,
    Order.update_total, Order.add_payment. rewrite H. repeat split; reflexivity.
Qed.

Lemma unsaved_order_is_inert_witness :
  Order.id (Order.new (Some 7) None) = None /\
  Order.delete (Order.new (Some 7) None) db0 = (false, Order.new (Some 7) None, db0) /\
  Order.add_item (Order.new (Some 7) None) 1 2 15000000 db0
    = (None, Order.new (Some 7) None, db0) /\
  Order.add_payment (Order.new (Some 7) None) 100 "cash" db0
    = (false, Order.new (Some 7) None, db0).
Proof.
  split; [reflexivity|].
  destruct (unsaved_order_is_inert (Order.new (Some 7) None) db0 eq_refl)
    as (Hd & Ha & _ & _ & Hp).
  split; [exact Hd|]. split; [apply Ha|apply Hp].
Defined.

(** ** Stock *)

Lemma product_get_by_id_Some (pid : Z) (p : Product.t) (db : Db) :
  Product.get_by_id pid db = Some p <->
  exists r, rows (products db) !! pid = Some r /\ p = Product.of_row pid r.
Proof.
  unfold Product.get_by_id. destruct (rows (products db) !! pid) as [r|].
  - split; [intros [= <-]; by exists r|]. by intros (r' & [= <-] & ->).
  - split; [done|]. by intros (r' & [=] & _).
Qed.

(** [update_stock] on an object read from the store, when the new stock and
    the id can be bound. *)
Lemma update_stock_eq (pid quantity s : Z) (r : ProductRow) (db : Db) :
  rows (products db) !! pid = Some r ->
  p_stock r = Some s ->
  int64 (s + quantity) = true -> int64 pid = true ->
  Product.update_stock (Product.of_row pid r) quantity db =
    (true, Product.of_row pid (Product.row_set_stock (Some (s + quantity)) r),
     with_products (update_row (Product.row_set_stock (Some (s + quantity))) pid (products db))
                   db).
Proof.
  intros Hr Hs H1 H2. unfold Product.update_stock, Product.of_row. cbn.
  by rewrite Hs, H1, H2.
Qed.

(** C3, counterexample. A stock of 10 adjusted by -11: [update_stock]
    answers [True], stores -1, and the next reader sees -1. *)
Lemma update_stock_goes_negative :
  exists p,
    Product.get_by_id 1 db0 = Some p /\ Product.stock p = Some 10 /\
    let '(r, _, db) := Product.update_stock p (-11) db0 in
    r = true /\
    p_stock <$> rows (products db) !! 1 = Some (Some (-1)) /\
    Product.stock <$> Product.get_by_id 1 db = Some (Some (-1)).
Proof.
  eexists. split; [reflexivity|]. split; [reflexivity|].
  vm_compute. repeat split; reflexivity.
Qed.

(** C3, amended. The stock adjustment has no lower bound. For a product
    read from the store, with an id that fits 64 bits:
    - when its stock is a number and the stock plus delta fits the signed
      64-bit range, [update_stock] answers [True], and the object and the
      stored row carry the old stock plus delta, negative or not; a later
      reader sees that value; other products and the other tables are
      untouched;
    - when its stock is a number and the sum does not fit 64 bits, or when
      its stock is NULL, [update_stock] answers [False] and writes nothing:
      that is the only failure, and it has nothing to do with the sign;
    - on the [add_item] path, with arguments the INSERT stores as given
      ([line_ok]), the stock drops by the quantity whatever it was, as long
      as the new stock fits 64 bits. *)
Theorem update_stock_has_no_floor (product_id quantity : Z) (p : Product.t) (db : Db) :
  Product.get_by_id product_id db = Some p ->
  int64 product_id = true ->
  (forall s,
      Product.stock p = Some s -> int64 (s + quantity) = true ->
      let '(r, p', db') := Product.update_stock p quantity db in
      r = true /\
      p' = Product.set_stock (Some (s + quantity)) p /\
      Product.get_by_id product_id db' = Some p' /\
      (forall j, j <> product_id -> Product.get_by_id j db' = Product.get_by_id j db) /\
      orders db' = orders db /\ order_items db' = order_items db /\
      financial_transactions db' = financial_transactions db) /\
  (forall s,
      Product.stock p = Some s -> int64 (s + quantity) = false ->
      Product.update_stock p quantity db = (false, p, db)) /\
  (Product.stock p = None -> Product.update_stock p quantity db = (false, p, db)) /\
  (forall s o oid price,
      Product.stock p = Some s ->
      Order.id o = Some oid ->
      line_ok oid product_id quantity price ->
      int64 (s - quantity) = true ->
      let '(_, _, db') := Order.add_item o product_id quantity price db in
      Product.get_by_id product_id db' = Some (Product.set_stock (Some (s - quantity)) p)).
Proof.
  intros H Hpid. apply product_get_by_id_Some in H as (r & E & ->).
  split; [|split; [|split]].
  - intros s Hs Hb. cbn in Hs. rewrite (update_stock_eq product_id quantity s r) by done.
    split; [done|]. split; [done|]. split; [|split; [|done]].
    + unfold Product.get_by_id. cbn. rewrite lookup_alter_eq, E. reflexivity.
    + intros j Hj. unfold Product.get_by_id. cbn. by rewrite lookup_alter_ne.
  - intros s Hs Hb. cbn in Hs. unfold Product.update_stock, Product.of_row. cbn.
    by rewrite Hs, Hb.
  - intros Hs. cbn in Hs. unfold Product.update_stock, Product.of_row. cbn. by rewrite Hs.
  - intros s o oid price Hs Hid Hok Hb. cbn in Hs.
    rewrite (add_item_eq o oid) by (done || by apply line_ok_binds).
    unfold Product.get_by_id. cbn [products].
    rewrite lookup_sold, decide_True by done. rewrite E. cbn.
    rewrite Hpid, Hs. unfold stock_step.
    replace (s + - quantity) with (s - quantity) by lia. by rewrite Hb.
Qed.

Lemma update_stock_has_no_floor_witness :
  Product.get_by_id 1 db0 = Some (Product.of_row 1 (mkProductRow "Laptop" 15000000 (Some 10))) /\
  int64 1 = true /\ int64 (10 + -11) = true /\
  Product.get_by_id 1
    (Product.update_stock (Product.of_row 1 (mkProductRow "Laptop" 15000000 (Some 10)))
       (-11) db0).2
  = Some (Product.mk (Some 1) (Some "Laptop"%string) (Some 15000000) (Some (-1))).
Proof.
  split; [reflexivity|]. split; [reflexivity|]. split; [reflexivity|].
  pose proof (update_stock_has_no_floor 1 (-11) _ db0 eq_refl eq_refl) as [H _].
  specialize (H 10 eq_refl eq_refl).
  destruct (Product.update_stock _ _ _) as [[r p'] db'].
  destruct H as (_ & -> & H & _). exact H.
Defined.

(** ** Deleting an order *)

(** What [delete] does for a saved order: the order row and every line of
    the order go, the lines of other orders stay, and the product table is
    not touched. *)
Lemma delete_cascades_without_restock (o : Order.t) (oid : Z) (db : Db) :
  Order.id o = Some oid ->
  let '(r, _, db') := Order.delete o db in
  r = true /\
  rows (orders db') !! oid = None /\
  (forall k it, rows (order_items db') !! k = Some it <->
                rows (order_items db) !! k = Some it /\ i_order_id it <> oid) /\
  products db' = products db /\
  financial_transactions db' = financial_transactions db.
Proof.
  intros Hid. rewrite (delete_eq o oid) by done. cbn.
  split; [done|]. split; [apply lookup_delete_eq|]. split; [|done].
  intros k it. rewrite map_lookup_filter_Some. reflexivity.
Qed.

(** C4, evaluated. From Scenario A (stock 10, one line of quantity 2, stock
    8 after the sale) [delete] removes the line and the order and answers
    [True], and the product's stock is still 8: the quantity of the line is
    not added back. *)
Theorem delete_leaves_stock_consumed :
  let '(_, o, db) := scenario_A in
  p_stock <$> rows (products db) !! 1 = Some (Some 8) /\
  i_quantity <$> rows (order_items db) !! 1 = Some 2 /\
  let '(r, _, db') := Order.delete o db in
  r = true /\
  rows (order_items db') = ∅ /\
  rows (orders db') = ∅ /\
  p_stock <$> rows (products db') !! 1 = Some (Some 8).
Proof. vm_compute. repeat split; reflexivity. Qed.

(** ** Status *)

(** C2, counterexample. After Scenario A the status is still ['pending'],
    where the rule gives ['unpaid']; after a further payment of half the
    total it is still ['pending'], where the rule gives ['partial']. *)
Lemma status_is_not_derived :
  let '(_, o, db) := scenario_A in
  Order.total_amount o = 30000000 /\
  Order.status o = "pending"%string /\
  r_status <$> rows (orders db) !! 1 = Some "pending"%string /\
  Order.status o <> derive_status (Order.total_amount o) (Order.paid_amount o) /\
  let '(_, o', db') := Order.add_payment o 15000000 "cash" db in
  Order.status o' = "pending"%string /\
  r_status <$> rows (orders db') !! 1 = Some "pending"%string /\
  Order.status o' <> derive_status (Order.total_amount o') (Order.paid_amount o').
Proof. vm_compute. repeat split; try reflexivity; discriminate. Qed.

Lemma update_total_keeps_status (v oid k : Z) (t : Table OrderRow) :
  r_status <$> rows (update_row (Order.row_set_total_amount v) oid t) !! k
  = r_status <$> rows t !! k.
Proof.
  rewrite lookup_update_row. case_decide; [subst k|done]. by destruct (rows t !! oid).
Qed.

(** C2, amended. [add_item] and [remove_item] leave the status of the
    object and of every stored order as it was, whether they succeed or
    not. [add_payment], on a saved order whose id fits 64 bits, with an
    amount and a paid amount after the payment that are at most 2^53 in
    magnitude, answers [True] and sets the status of the object and of its
    stored row to ['paid'] when the object's paid amount after the payment
    reaches its total amount, and otherwise leaves both as they were; other
    orders keep their status. After creating an order with the default status and
    adding one line (quantity 2, unit price 15000000) the total is 30000000
    and the status is ['pending']. *)
Theorem status_changes_only_to_paid (o : Order.t) (db : Db) :
  (forall product_id quantity price,
      let '(_, o', db') := Order.add_item o product_id quantity price db in
      Order.status o' = Order.status o /\
      forall k, r_status <$> rows (orders db') !! k = r_status <$> rows (orders db) !! k) /\
  (forall item_id,
      let '(_, o', db') := Order.remove_item o item_id db in
      Order.status o' = Order.status o /\
      forall k, r_status <$> rows (orders db') !! k = r_status <$> rows (orders db) !! k) /\
  (forall oid amount method,
      Order.id o = Some oid ->
      int64 oid = true ->
      real_exact amount = true ->
      real_exact (Order.paid_amount o + amount) = true ->
      let full := Order.total_amount o <=? Order.paid_amount o + amount in
      let '(r, o', db') := Order.add_payment o amount method db in
      r = true /\
      Order.status o' = (if full then "paid"%string else Order.status o) /\
      r_status <$> rows (orders db') !! oid =
        (fun r => if full then "paid"%string else r_status r) <$> rows (orders db) !! oid /\
      forall k, k <> oid ->
                r_status <$> rows (orders db') !! k = r_status <$> rows (orders db) !! k) /\
  (let '(_, oA, dbA) := scenario_A in
   Order.total_amount oA = 30000000 /\ Order.status oA = "pending"%string /\
   r_status <$> rows (orders dbA) !! 1 = Some "pending"%string).
Proof.
  split; [|split; [|split]].
  - intros product_id quantity price.
    destruct (Order.id o) as [oid|] eqn:Hid; [|by rewrite add_item_unsaved].
    destruct (add_item_binds oid product_id quantity price) eqn:Hb;
      [|by rewrite (add_item_fails o oid)].
    rewrite (add_item_eq o oid) by done. split; [reflexivity|].
    intros k. apply update_total_keeps_status.
  - intros item_id.
    destruct (rows (order_items db) !! item_id) as [it|] eqn:Hit;
      [|by rewrite remove_item_missing].
    destruct (Order.id o) as [oid|] eqn:Hid; [|by rewrite remove_item_unsaved].
    rewrite (remove_item_eq o oid item_id it) by done.
    split; [reflexivity|]. intros k. apply update_total_keeps_status.
  - intros oid amount method Hid Hoid _ Hpaid.
    rewrite (add_payment_eq o oid)
      by (done || by rewrite (real_exact_int64 _ Hpaid), Hoid).
    cbv zeta. split; [done|].
    destruct (Order.total_amount o <=? Order.paid_amount o + amount); cbn [orders].
    + split; [reflexivity|]. split.
      * rewrite !lookup_update_row_eq. by destruct (rows (orders db) !! oid).
      * intros k Hk. by rewrite !lookup_update_row_ne by done.
    + split; [reflexivity|]. split.
      * rewrite !lookup_update_row_eq. by destruct (rows (orders db) !! oid).
      * intros k Hk. by rewrite !lookup_update_row_ne by done.
  - vm_compute. repeat split; reflexivity.
Qed.

Lemma status_changes_only_to_paid_witness :
  Order.id (Order.mk (Some 1) None None "pending" 30 0 None) = Some 1 /\
  int64 1 = true /\ real_exact 10 = true /\
  real_exact (Order.paid_amount (Order.mk (Some 1) None None "pending" 30 0 None) + 10) = true /\
  Order.status
    (Order.add_payment (Order.mk (Some 1) None None "pending" 30 0 None) 10 "cash" db0).1.2
  = "pending"%string.
Proof.
  split; [reflexivity|]. split; [reflexivity|]. split; [reflexivity|].
  split; [reflexivity|].
  pose proof (status_changes_only_to_paid
                (Order.mk (Some 1) None None "pending" 30 0 None) db0) as (_ & _ & H & _).
  specialize (H 1 10 "cash"%string eq_refl eq_refl eq_refl eq_refl).
  destruct (Order.add_payment _ _ _ _) as [[r o'] db']. exact (proj1 (proj2 H)).
Defined.

(** ** Adding a line *)








(** ** Payments *)

(** C6, counterexample. On a created order (paid amount 0, empty ledger)
    [add_payment] with amount -5 and then with amount 0 answers [True] both
    times; the paid amount is -5 and the ledger has two rows. And a payment
    of 5 made through an object read before a payment of 10 was made
    through another one answers [True] and leaves the stored paid amount at
    5, not 15: the amount is added to what the object holds, not to the
    stored row. *)
Lemma add_payment_accepts_any_amount :
  let '(o, db) := created in
  Order.paid_amount o = 0 /\
  rows (financial_transactions db) = ∅ /\
  (let '(r1, o1, db1) := Order.add_payment o (-5) "cash" db in
   let '(r2, o2, db2) := Order.add_payment o1 0 "cash" db1 in
   r1 = true /\
   Order.paid_amount o1 = -5 /\
   r_paid_amount <$> rows (orders db1) !! 1 = Some (-5) /\
   f_amount <$> rows (financial_transactions db1) !! 1 = Some (-5) /\
   r2 = true /\
   size (rows (financial_transactions db2)) = 2%nat) /\
  (let '(r1, _, db1) := Order.add_payment o 10 "cash" db in
   let '(r2, _, db2) := Order.add_payment o 5 "cash" db1 in
   r1 = true /\ r_paid_amount <$> rows (orders db1) !! 1 = Some 10 /\
   r2 = true /\ r_paid_amount <$> rows (orders db2) !! 1 = Some 5 /\
   f_amount <$> rows (financial_transactions db2) !! 1 = Some 10 /\
   f_amount <$> rows (financial_transactions db2) !! 2 = Some 5).
Proof. vm_compute. repeat split; reflexivity. Qed.

(** C6, amended. [add_payment] has no check on the sign of the amount. On
    a saved order whose id fits 64 bits, for every amount, positive or not,
    such that the amount and the object's paid amount plus the amount are
    at most 2^53 in magnitude, it answers [True]; the paid amount of the
    object and of the stored order become the object's paid amount plus
    the amount, whatever the stored order held; the status of both becomes
    ['paid'] when that new paid amount reaches the object's total amount
    and is otherwise left alone; and exactly one ledger row is added, under
    a fresh id: an income of category payment carrying the amount, the
    method, the text "Payment for order" with the object's order number,
    and the order's id as the reference of type order. Lines and products
    are as before. *)
Theorem add_payment_posts_any_amount
    (o : Order.t) (oid amount : Z) (method : string) (db : Db) :
  Order.id o = Some oid ->
  int64 oid = true ->
  real_exact amount = true ->
  real_exact (Order.paid_amount o + amount) = true ->
  let paid := Order.paid_amount o + amount in
  let full := Order.total_amount o <=? paid in
  let k := next_rowid (financial_transactions db) in
  let '(r, o', db') := Order.add_payment o amount method db in
  r = true /\
  Order.paid_amount o' = paid /\
  r_paid_amount <$> rows (orders db') !! oid = (fun _ => paid) <$> rows (orders db) !! oid /\
  Order.status o' = (if full then "paid"%string else Order.status o) /\
  r_status <$> rows (orders db') !! oid =
    (fun r => if full then "paid"%string else r_status r) <$> rows (orders db) !! oid /\
  (forall j, j <> oid -> rows (orders db') !! j = rows (orders db) !! j) /\
  rows (financial_transactions db) !! k = None /\
  rows (financial_transactions db') =
    <[k := mkFinRow "income" "payment" amount
             ("Payment for order " ++ Order.py_str_opt (Order.order_number o))
             (py_str oid) "order" method]> (rows (financial_transactions db)) /\
  size (rows (financial_transactions db')) = S (size (rows (financial_transactions db))) /\
  order_items db' = order_items db /\
  products db' = products db.
Proof.
  intros Hid Hoid Hamount Hpaid paid full k.
  rewrite (add_payment_eq o oid)
    by (done || by rewrite (real_exact_int64 _ Hpaid), Hoid).
  cbv zeta. fold paid. fold full.
  assert (Hk : rows (financial_transactions db) !! k = None) by apply next_rowid_fresh.
  assert (Hposted : rows (posted (payment_row o oid amount method)
                                 (financial_transactions db))
                    = <[k := payment_row o oid amount method]>
                        (rows (financial_transactions db))).
  { unfold posted. cbn [f_amount payment_row]. by rewrite (real_exact_int64 _ Hamount). }
  split; [done|]. split; [by destruct full|]. split.
  { cbn [orders]. destruct full;
      rewrite !lookup_update_row_eq; by destruct (rows (orders db) !! oid). }
  split; [by destruct full|]. split.
  { cbn [orders]. destruct full;
      rewrite !lookup_update_row_eq; by destruct (rows (orders db) !! oid). }
  split.
  { intros j Hj. cbn [orders]. destruct full; by rewrite !lookup_update_row_ne by done. }
  split; [done|]. cbn [financial_transactions order_items products].
  rewrite Hposted. split; [done|]. split; [|done].
  by apply map_size_insert_None.
Qed.

Lemma add_payment_posts_any_amount_witness :
  Order.id (fst created) = Some 1 /\
  int64 1 = true /\ real_exact (-5) = true /\
  real_exact (Order.paid_amount (fst created) + -5) = true /\
  Order.paid_amount (Order.add_payment (fst created) (-5) "cash" (snd created)).1.2
  = Order.paid_amount (fst created) + -5.
Proof.
  split; [reflexivity|]. split; [reflexivity|]. split; [reflexivity|].
  split; [reflexivity|].
  pose proof (add_payment_posts_any_amount (fst created) 1 (-5) "cash" (snd created)
                eq_refl eq_refl eq_refl eq_refl) as H.
  cbv zeta in H.
  destruct (Order.add_payment _ _ _ _) as [[r o'] db']. exact (proj1 (proj2 H)).
Defined.

(** ** The total of an order and its lines *)













(** ** Adding a line and removing it again *)








(** ** Text: byte order, LIKE, slices *)

Lemma ascii_compare_refl (c : ascii) : Ascii.compare c c = Eq.
Proof. unfold Ascii.compare. apply N.compare_refl. Qed.

Lemma ascii_compare_lt_trans (a b c : ascii) :
  Ascii.compare a b = Lt -> Ascii.compare b c = Lt -> Ascii.compare a c = Lt.
Proof. unfold Ascii.compare. rewrite !N.compare_lt_iff. lia. Qed.

Lemma string_compare_cons (x y : ascii) (a b : string) :
  String.compare (String x a) (String y b) =
    match Ascii.compare x y with
    | Eq => String.compare a b
    | Lt => Lt
    | Gt => Gt
    end.
Proof. reflexivity. Qed.

Lemma string_compare_refl (s : string) : String.compare s s = Eq.
Proof. induction s as [|c s IH]; [done|]. cbn. by rewrite ascii_compare_refl. Qed.

Lemma string_compare_lt_trans (a b c : string) :
  String.compare a b = Lt -> String.compare b c = Lt -> String.compare a c = Lt.
Proof.
  revert b c. induction a as [|x a IH]; intros [|y b] [|z c]; cbn; try done.
  destruct (Ascii.compare x y) eqn:Exy; [| |done].
  - apply Ascii.compare_eq_iff in Exy. subst y.
    destruct (Ascii.compare x z); [apply IH|done|done].
  - destruct (Ascii.compare y z) eqn:Eyz; [| |done].
    + apply Ascii.compare_eq_iff in Eyz. subst z. by rewrite Exy.
    + by rewrite (ascii_compare_lt_trans x y z).
Qed.

Lemma string_compare_gt_lt (a b : string) :
  String.compare a b = Gt -> String.compare b a = Lt.
Proof. intros H. rewrite String.compare_antisym, H. done. Qed.

(** Below [b], and [b] below [s]: then not above [s]. *)
Lemma string_compare_below (t b s : string) :
  String.compare t b <> Gt -> String.compare s b = Gt -> String.compare t s <> Gt.
Proof.
  intros Htb Hsb. apply string_compare_gt_lt in Hsb.
  destruct (String.compare t b) eqn:E; [| |done].
  - apply String.compare_eq_iff in E. subst t. by rewrite Hsb.
  - by rewrite (string_compare_lt_trans t b s).
Qed.

Lemma string_compare_app (p a b : string) :
  String.compare (p ++ a) (p ++ b) = String.compare a b.
Proof.
  induction p as [|c p IH]; [done|].
  change (String.compare (String c (p ++ a)) (String c (p ++ b)) = String.compare a b).
  rewrite string_compare_cons, ascii_compare_refl. exact IH.
Qed.

Lemma greatest_cons (s : string) (l : list string) :
  greatest (s :: l) =
    match greatest l with
    | None => Some s
    | Some b => match String.compare s b with
                | Gt => Some s
                | _ => Some b
                end
    end.
Proof. reflexivity. Qed.

Lemma greatest_None (l : list string) : greatest l = None -> l = [].
Proof.
  destruct l as [|s l]; [done|]. rewrite greatest_cons.
  destruct (greatest l) as [b|]; [|done]. by destruct (String.compare s b).
Qed.

(** [ORDER BY ... DESC LIMIT 1] answers a row of the list that no row of
    the list is above. *)
Lemma greatest_Some (l : list string) (b : string) :
  greatest l = Some b ->
  In b l /\ forall s, In s l -> String.compare s b <> Gt.
Proof.
  revert b. induction l as [|s0 l IH]; intros b; [done|]. rewrite greatest_cons.
  destruct (greatest l) as [b'|] eqn:E.
  - destruct (IH b' eq_refl) as [Hin Hmax].
    destruct (String.compare s0 b') eqn:Ec; intros [= <-].
    + split; [by right|]. intros s [<-|Hs]; [by rewrite Ec|by apply Hmax].
    + split; [by right|]. intros s [<-|Hs]; [by rewrite Ec|by apply Hmax].
    + split; [by left|]. intros s [<-|Hs]; [by rewrite string_compare_refl|].
      apply (string_compare_below s b' s0); [by apply Hmax|done].
  - intros [= <-]. apply greatest_None in E. subst l.
    split; [by left|]. intros s [<-|[]]. by rewrite string_compare_refl.
Qed.

Lemma sql_like_percent (s : string) : sql_like "%" s = true.
Proof. induction s as [|c s IH]; [done|]. cbn in *. exact IH. Qed.

Lemma sql_like_cons_percent (pattern s : string) :
  sql_like (String "%" pattern) s =
    sql_like pattern s ||
    match s with
    | EmptyString => false
    | String _ s' => sql_like (String "%" pattern) s'
    end.
Proof. by destruct s. Qed.

Lemma sql_like_cons_other (c x : ascii) (pattern s : string) :
  Ascii.eqb c "%" = false ->
  sql_like (String c pattern) (String x s) =
    if Ascii.eqb c "_" then sql_like pattern s
    else Ascii.eqb (upper c) (upper x) && sql_like pattern s.
Proof.
  intros H. simpl sql_like. rewrite H. by destruct (Ascii.eqb c "_").
Qed.

(** A text matches itself as a pattern, whatever follows on both sides
    matching too. *)
Lemma sql_like_app (p q s : string) :
  sql_like q s = true -> sql_like (p ++ q) (p ++ s) = true.
Proof.
  intros H. induction p as [|c p IH]; [done|].
  destruct (Ascii.eqb c "%") eqn:E1.
  - apply Ascii.eqb_eq in E1. subst c.
    change (String "%" p ++ q)%string with (String "%" (p ++ q)).
    change (String "%" p ++ s)%string with (String "%" (p ++ s)).
    rewrite sql_like_cons_percent, sql_like_cons_percent, IH.
    by rewrite orb_true_r.
  - change (sql_like (String c (p ++ q)) (String c (p ++ s)) = true).
    rewrite sql_like_cons_other by done. rewrite IH, Ascii.eqb_refl.
    by destruct (Ascii.eqb c "_").
Qed.

Lemma string_length_app (a b : string) :
  String.length (a ++ b) = (String.length a + String.length b)%nat.
Proof.
  induction a as [|c a IH]; [done|].
  change (S (String.length (a ++ b)) = S (String.length a + String.length b)).
  by rewrite IH.
Qed.

Lemma substring_all (s : string) : substring 0 (String.length s) s = s.
Proof.
  induction s as [|c s IH]; [done|].
  change (String c (substring 0 (String.length s) s) = String c s).
  by rewrite IH.
Qed.

Lemma last4_exact (s : string) : String.length s = 4%nat -> last4 s = s.
Proof.
  intros H. unfold last4. rewrite H. cbn [Nat.sub].
  rewrite <- H. apply substring_all.
Qed.

Lemma last4_app (p s : string) :
  (4 <= String.length s)%nat -> last4 (p ++ s) = last4 s.
Proof.
  intros H. induction p as [|c p IH]; [done|].
  rewrite <- IH.
  assert (Hn : (4 <= String.length (p ++ s))%nat) by (rewrite string_length_app; lia).
  unfold last4.
  change (String c p ++ s)%string with (String c (p ++ s)).
  change (String.length (String c (p ++ s))) with (S (String.length (p ++ s))).
  replace (S (String.length (p ++ s)) - 4)%nat with (S (String.length (p ++ s) - 4)) by lia.
  reflexivity.
Qed.

(** ** Four-digit sequence numbers *)

Lemma below_spec (n : nat) (f : Z -> bool) :
  below n f = true -> forall k, 0 <= k < Z.of_nat n -> f k = true.
Proof.
  induction n as [|n IH]; intros H k Hk; [lia|].
  cbn [below] in H. apply andb_true_iff in H as [H1 H2].
  destruct (decide (k = Z.of_nat n)) as [->|Hne]; [done|].
  apply IH; [done|lia].
Qed.

Lemma four_digit_all : below (Z.to_nat 10000) four_digit_ok = true.
Proof. vm_compute. reflexivity. Qed.

Lemma four_digit (n : Z) :
  0 <= n <= 9999 ->
  String.length (format_04d n) = 4%nat /\
  py_int (format_04d n) = Some n /\
  (n < 9999 -> String.compare (format_04d n) (format_04d (n + 1)) = Lt).
Proof.
  intros Hn. pose proof (below_spec _ _ four_digit_all n) as H.
  specialize (H ltac:(lia)). unfold four_digit_ok in H.
  apply andb_true_iff in H as [H H3]. apply andb_true_iff in H as [H1 H2].
  split; [by apply Nat.eqb_eq|]. split.
  - destruct (py_int (format_04d n)) as [k|]; [|done].
    apply Z.eqb_eq in H2. by subst.
  - intros Hlt. apply orb_true_iff in H3 as [H3|H3]; [apply Z.eqb_eq in H3; lia|].
    by destruct (String.compare (format_04d n) (format_04d (n + 1))).
Qed.

(** Within four digits, byte order is numeric order. *)
Lemma format_04d_lt (n m : Z) :
  0 <= n -> n < m -> m <= 9999 ->
  String.compare (format_04d n) (format_04d m) = Lt.
Proof.
  intros Hn Hlt Hm.
  replace m with (n + 1 + Z.of_nat (Z.to_nat (m - n - 1))) in * by lia.
  induction (Z.to_nat (m - n - 1)) as [|d IH].
  - rewrite Z.add_0_r. apply four_digit; lia.
  - apply (string_compare_lt_trans _ (format_04d (n + 1 + Z.of_nat d))).
    + apply IH; lia.
    + replace (n + 1 + Z.of_nat (S d)) with (n + 1 + Z.of_nat d + 1) by lia.
      apply four_digit; lia.
Qed.

Lemma format_04d_not_gt (n m : Z) :
  0 <= n <= 9999 -> 0 <= m <= 9999 ->
  String.compare (format_04d n) (format_04d m) <> Gt -> n <= m.
Proof.
  intros Hn Hm H. destruct (Z_le_gt_dec n m) as [|Hgt]; [done|].
  exfalso. apply H. rewrite String.compare_antisym.
  rewrite (format_04d_lt m n) by lia. done.
Qed.

(** ** The number generator *)

Lemma filter_nil_iff (f : string -> bool) (l : list string) :
  (forall s, In s l -> f s <> true) -> List.filter f l = [].
Proof.
  intros H. destruct (List.filter f l) as [|s l'] eqn:E; [done|].
  assert (Hs : In s (List.filter f l)) by (rewrite E; by left).
  apply filter_In in Hs as [Hs1 Hs2]. by destruct (H s Hs1).
Qed.

Lemma last4_number (prefix date_str : string) (n : Z) :
  0 <= n <= 9999 ->
  last4 (prefix ++ date_str ++ format_04d n) = format_04d n.
Proof.
  intros Hn. destruct (four_digit n Hn) as (Hl & _ & _).
  rewrite last4_app by (rewrite string_length_app; lia).
  rewrite last4_app by lia. by apply last4_exact.
Qed.

Lemma sql_like_number (prefix date_str suffix : string) :
  sql_like (prefix ++ date_str ++ "%") (prefix ++ date_str ++ suffix) = true.
Proof. apply sql_like_app, sql_like_app, sql_like_percent. Qed.

(** C8, evaluated. With ["ORD202401019999"] stored, the generator issues
    ["ORD2024010110000"], the number of sequence 10000. With that number
    stored as well it issues ["ORD2024010110000"] again: a number that is
    already stored, and not the number of sequence 10001, one more than the
    highest sequence issued. The number ending in 9999 is still the
    greatest in byte order, and only its last four characters are read. *)
Theorem generate_number_repeats_after_9999 :
  let first := DatabaseController.generate_number "ORD" "20240101" ["ORD202401019999"] in
  let stored := [first; "ORD202401019999"%string] in
  let second := DatabaseController.generate_number "ORD" "20240101" stored in
  first = "ORD2024010110000"%string /\
  first = number "ORD" "20240101" 10000 /\
  greatest stored = Some "ORD202401019999"%string /\
  last4 "ORD202401019999" = "9999"%string /\
  second = first /\
  In second stored /\
  second <> number "ORD" "20240101" 10001.
Proof.
  vm_compute. repeat split; try reflexivity; [by left|discriminate].
Qed.

(** What holds of the generator. Take the stored numbers it looks at for a
    prefix and a date: those matching the prefix followed by the date.
    - If there is none, the result is prefix, date, ["0001"].
    - If each of them is prefix, date and a sequence written with four
      digits (0 to 9999), and [m] is the highest sequence among them, the
      result is prefix, date and [m + 1] written with at least four
      digits.
    - If the trailing four characters of the greatest of them (in byte
      order) do not parse as an integer, the result is prefix, date,
      ["0001"]; nothing is raised. *)
Theorem generate_number_next (prefix date_str : string) (column : list string) :
  let number n := (prefix ++ date_str ++ format_04d n)%string in
  let matches s := sql_like (prefix ++ date_str ++ "%") s = true in
  ((forall s, In s column -> ~ matches s) ->
   DatabaseController.generate_number prefix date_str column
   = (prefix ++ date_str ++ "0001")%string) /\
  ((forall s, In s column -> matches s -> exists n, 0 <= n <= 9999 /\ s = number n) ->
   forall m, 0 <= m <= 9999 -> In (number m) column ->
             (forall n, 0 <= n <= 9999 -> In (number n) column -> n <= m) ->
             DatabaseController.generate_number prefix date_str column = number (m + 1)) /\
  (forall last, In last column -> matches last ->
                (forall s, In s column -> matches s -> String.compare s last <> Gt) ->
                py_int (last4 last) = None ->
                DatabaseController.generate_number prefix date_str column
                = (prefix ++ date_str ++ "0001")%string).
Proof.
  intros number matches. unfold DatabaseController.generate_number.
  set (cands := List.filter (sql_like (prefix ++ date_str ++ "%")) column).
  assert (Hc : forall s, In s cands <-> In s column /\ matches s)
    by (intros s; apply filter_In).
  split; [|split].
  - intros Hnone. subst cands. rewrite filter_nil_iff; [reflexivity|].
    intros s Hs. by apply Hnone.
  - intros Hwf m Hm Hin Hmax.
    assert (Hmc : In (number m) cands) by (apply Hc; split; [done|apply sql_like_number]).
    destruct (greatest cands) as [b|] eqn:Eg;
      [|apply greatest_None in Eg; rewrite Eg in Hmc; destruct Hmc].
    apply greatest_Some in Eg as [Hb Hbmax].
    apply Hc in Hb as [Hb1 Hb2].
    destruct (Hwf b Hb1 Hb2) as (nb & Hnb & ->).
    assert (nb = m) as ->.
    { apply Z.le_antisymm; [by apply Hmax|].
      apply format_04d_not_gt; [done|done|].
      specialize (Hbmax _ Hmc). unfold number in Hbmax.
      by rewrite !string_compare_app in Hbmax. }
    fold (number m). unfold number at 1. rewrite last4_number by done.
    destruct (four_digit m Hm) as (_ & -> & _). reflexivity.
  - intros last Hl1 Hl2 Hlmax Hparse.
    assert (Hlc : In last cands) by (by apply Hc).
    destruct (greatest cands) as [b|] eqn:Eg;
      [|apply greatest_None in Eg; rewrite Eg in Hlc; destruct Hlc].
    apply greatest_Some in Eg as [Hb Hbmax].
    apply Hc in Hb as [Hb1 Hb2].
    assert (b = last) as ->.
    { specialize (Hbmax _ Hlc). specialize (Hlmax _ Hb1 Hb2).
      destruct (String.compare b last) eqn:E; [|exfalso|done].
      - by apply String.compare_eq_iff.
      - apply Hbmax. rewrite String.compare_antisym, E. done. }
    rewrite Hparse. reflexivity.
Qed.

Lemma generate_number_next_witness :
  let column := ["ORD202401010007"; "INV202401010003"]%string in
  let number n := ("ORD" ++ "20240101" ++ format_04d n)%string in
  (forall s, In s column -> sql_like ("ORD" ++ "20240101" ++ "%") s = true ->
             exists n, 0 <= n <= 9999 /\ s = number n) /\
  0 <= 7 <= 9999 /\
  In (number 7) column /\
  (forall n, 0 <= n <= 9999 -> In (number n) column -> n <= 7) /\
  DatabaseController.generate_number "ORD" "20240101" column = number (7 + 1).
Proof.
  intros column number.
  assert (Hwf : forall s, In s column ->
                          sql_like ("ORD" ++ "20240101" ++ "%") s = true ->
                          exists n, 0 <= n <= 9999 /\ s = number n).
  { intros s [<-|[<-|[]]] Hs.
    - exists 7. split; [lia|reflexivity].
    - vm_compute in Hs. discriminate. }
  assert (Hin : In (number 7) column) by (left; reflexivity).
  assert (Hmax : forall n, 0 <= n <= 9999 -> In (number n) column -> n <= 7).
  { intros n Hn [H|[H|[]]].
    - destruct (four_digit n Hn) as (_ & Hp & _).
      assert (H' : format_04d n = "0007"%string) by (injection H as H; exact (eq_sym H)).
      rewrite H' in Hp. vm_compute in Hp. injection Hp as <-. lia.
    - discriminate H. }
  split; [exact Hwf|]. split; [lia|]. split; [exact Hin|]. split; [exact Hmax|].
  exact (proj1 (proj2 (generate_number_next "ORD" "20240101" column))
           Hwf 7 ltac:(lia) Hin Hmax).
Defined.

(** ** Saving and finding orders *)

Lemma elem_of_select (cond : OrderRow -> bool) (db : Db) (o : Order.t) :
  o ∈ Order.select cond db <->
  exists k r, rows (orders db) !! k = Some r /\ cond r = true /\ o = Order.of_row k r.
Proof.
  unfold Order.select. rewrite list_elem_of_fmap. split.
  - intros ([k r] & -> & Hin). apply list_elem_of_In, filter_In in Hin as [Hin Hc].
    apply list_elem_of_In, elem_of_map_to_list in Hin. by exists k, r.
  - intros (k & r & Hr & Hc & ->). exists (k, r). split; [done|].
    apply list_elem_of_In, filter_In. split; [|done].
    by apply list_elem_of_In, elem_of_map_to_list.
Qed.








(** X3. Whatever the object, a [save] that answers [False] has written
    nothing: the store is exactly as before. (The object of an unsaved
    order may by then carry the number generated for it.) *)
Theorem save_failure_writes_nothing (o : Order.t) (today : string) (db : Db) :
  let '(r, _, db') := Order.save o today db in
  r = false -> db' = db.
Proof.
  unfold Order.save. destruct (Order.id o) as [k|].
  - destruct (rows (orders db) !! k); [|done].
    destruct (Order.order_number o) as [n|]; [|done].
    by destruct (Order.number_taken n _).
  - set (o1 := match Order.order_number o with
               | Some (String _ _) => o
               | _ => Order.set_order_number _ o
               end).
    clearbody o1. destruct (Order.order_number o1) as [n|]; [|done].
    by destruct (Order.number_taken n _).
Qed.

Lemma save_failure_writes_nothing_witness :
  (Order.save (Order.mk None (Some "ORD202401010001") None "pending" 0 0 None)
     "20240101" (snd created)).1.1 = false /\
  (Order.save (Order.mk None (Some "ORD202401010001") None "pending" 0 0 None)
     "20240101" (snd created)).2 = snd created.
Proof.
  split; [reflexivity|].
  pose proof (save_failure_writes_nothing
                (Order.mk None (Some "ORD202401010001"%string) None "pending" 0 0 None)
                "20240101" (snd created)) as H.
  destruct (Order.save _ _ _) as [[r o'] db'] eqn:E.
  apply H. by injection E as <- _ _.
Defined.

(** ** More on the number generator *)

Lemma string_app_inv (p a b : string) : (p ++ a = p ++ b)%string -> a = b.
Proof.
  induction p as [|c p IH]; [done|]. intros H. apply IH.
  change (String c (p ++ a) = String c (p ++ b)) in H. by injection H.
Qed.

Lemma number_inj (prefix date_str : string) (n m : Z) :
  0 <= n <= 9999 -> 0 <= m <= 9999 ->
  number prefix date_str n = number prefix date_str m -> n = m.
Proof.
  intros Hn Hm H. unfold number in H. do 2 apply string_app_inv in H.
  destruct (four_digit n Hn) as (_ & Hpn & _).
  destruct (four_digit m Hm) as (_ & Hpm & _).
  rewrite H in Hpn. congruence.
Qed.

(** In a store of four-digit numbers the generator answers sequence 1 when
    nothing matches, and otherwise one more than the highest sequence. *)
Lemma generate_number_wf (prefix date_str : string) (column : list string) :
  four_digit_numbers prefix date_str column ->
  ((forall s, In s column -> sql_like (prefix ++ date_str ++ "%") s <> true) /\
   DatabaseController.generate_number prefix date_str column = number prefix date_str 1) \/
  (exists m, 0 <= m <= 9999 /\ In (number prefix date_str m) column /\
             (forall n, 0 <= n <= 9999 -> In (number prefix date_str n) column -> n <= m) /\
             DatabaseController.generate_number prefix date_str column
             = number prefix date_str (m + 1)).
Proof.
  intros Hwf. unfold DatabaseController.generate_number.
  set (cands := List.filter (sql_like (prefix ++ date_str ++ "%")) column).
  assert (Hc : forall s, In s cands <->
                         In s column /\ sql_like (prefix ++ date_str ++ "%") s = true)
    by (intros s; apply filter_In).
  destruct (greatest cands) as [b|] eqn:Eg.
  - right. apply greatest_Some in Eg as [Hb Hbmax].
    apply Hc in Hb as [Hb1 Hb2].
    destruct (Hwf b Hb1 Hb2) as (m & Hm & ->).
    exists m. split; [done|]. split; [done|]. split.
    + intros n Hn Hin. apply format_04d_not_gt; [done|done|].
      assert (Hnc : In (number prefix date_str n) cands)
        by (apply Hc; split; [done|apply sql_like_number]).
      specialize (Hbmax _ Hnc). unfold number in Hbmax.
      by rewrite !string_compare_app in Hbmax.
    + unfold number at 1. rewrite last4_number by done.
      destruct (four_digit m Hm) as (_ & -> & _). reflexivity.
  - left. apply greatest_None in Eg. split; [|reflexivity].
    intros s Hs Hm. assert (In s cands) as Hin by (by apply Hc).
    rewrite Eg in Hin. destruct Hin.
Qed.

(** X4. In a store whose numbers for a prefix and a date all carry a
    four-digit sequence, the number the generator answers is not one of the
    stored numbers. *)
Theorem generate_number_is_fresh (prefix date_str : string) (column : list string) :
  four_digit_numbers prefix date_str column ->
  ~ In (DatabaseController.generate_number prefix date_str column) column.
Proof.
  intros Hwf Hin. destruct (generate_number_wf _ _ _ Hwf) as [[Hnone E]|(m & Hm & _ & Hmax & E)].
  - rewrite E in Hin. apply (Hnone _ Hin). apply sql_like_number.
  - rewrite E in Hin.
    destruct (Hwf _ Hin (sql_like_number _ _ _)) as (n & Hn & Heq).
    destruct (decide (m = 9999)) as [->|Hne].
    + unfold number in Heq. do 2 apply string_app_inv in Heq.
      destruct (four_digit n Hn) as (Hl & _ & _). rewrite <- Heq in Hl.
      vm_compute in Hl. discriminate.
    + apply number_inj in Heq; [|lia|done]. subst n.
      specialize (Hmax (m + 1) ltac:(lia) Hin). lia.
Qed.

Lemma generate_number_is_fresh_witness :
  four_digit_numbers "ORD" "20240101" ["ORD202401010007"; "INV202401010003"]%string /\
  ~ In (DatabaseController.generate_number "ORD" "20240101"
          ["ORD202401010007"; "INV202401010003"]%string)
       ["ORD202401010007"; "INV202401010003"]%string.
Proof.
  assert (Hwf : four_digit_numbers "ORD" "20240101"
                  ["ORD202401010007"; "INV202401010003"]%string).
  { intros s [<-|[<-|[]]] Hs.
    - exists 7. split; [lia|reflexivity].
    - vm_compute in Hs. discriminate. }
  split; [exact Hwf|]. exact (generate_number_is_fresh _ _ _ Hwf).
Defined.



Lemma generate_after_run (prefix date_str : string) (column : list string) (n : Z) :
  0 <= n <= 9999 ->
  (forall s, In s column -> sql_like (prefix ++ date_str ++ "%") s = true ->
             exists k, 1 <= k <= n /\ s = number prefix date_str k) ->
  (forall k, 1 <= k <= n -> In (number prefix date_str k) column) ->
  DatabaseController.generate_number prefix date_str column = number prefix date_str (n + 1).
Proof.
  intros Hn Hall Hin.
  assert (Hwf : four_digit_numbers prefix date_str column).
  { intros s Hs Hm. destruct (Hall s Hs Hm) as (k & Hk & ->). exists k. split; [lia|done]. }
  destruct (generate_number_wf _ _ _ Hwf) as [[Hnone E]|(m & Hm & Hmin & Hmax & E)].
  - destruct (decide (n = 0)) as [->|Hne]; [done|].
    destruct (Hnone (number prefix date_str n)); [apply Hin; lia|apply sql_like_number].
  - destruct (Hall _ Hmin (sql_like_number _ _ _)) as (k & Hk & Heq).
    apply number_inj in Heq; [|done|lia]. subst k.
    assert (n <= m) by (apply Hmax; [lia|apply Hin; lia]).
    by replace m with n in E by lia.
Qed.

Lemma issue_holds_run (prefix date_str : string) (column : list string) (n : nat) :
  (forall s, In s column -> sql_like (prefix ++ date_str ++ "%") s <> true) ->
  Z.of_nat n <= 10000 ->
  (forall s, In s (issue prefix date_str n column) ->
             sql_like (prefix ++ date_str ++ "%") s = true ->
             exists k, 1 <= k <= Z.of_nat n /\ s = number prefix date_str k) /\
  (forall k, 1 <= k <= Z.of_nat n -> In (number prefix date_str k) (issue prefix date_str n column)).
Proof.
  intros Hnone. induction n as [|n IH]; intros Hn.
  - split; [|lia]. intros s Hs Hm. by destruct (Hnone s Hs).
  - destruct IH as [IH1 IH2]; [lia|].
    assert (Hg : DatabaseController.generate_number prefix date_str
                   (issue prefix date_str n column)
                 = number prefix date_str (Z.of_nat n + 1))
      by (apply generate_after_run; [lia|done|done]).
    cbn [issue]. rewrite Hg. split.
    + intros s [<-|Hs] Hm.
      * exists (Z.of_nat n + 1). split; [lia|done].
      * destruct (IH1 s Hs Hm) as (k & Hk & ->). exists k. split; [lia|done].
    + intros k Hk. destruct (decide (k = Z.of_nat n + 1)) as [->|Hne]; [by left|].
      right. apply IH2. lia.
Qed.

(** X6. Starting from a store with no number for a prefix and a date,
    numbers generated one after the other and stored each time carry the
    sequences 1, 2, 3, ...: after [n] of them (up to 9999) the next one is
    the number of sequence [n + 1]. *)
Theorem issue_counts_up (prefix date_str : string) (column : list string) (n : nat) :
  (forall s, In s column -> sql_like (prefix ++ date_str ++ "%") s <> true) ->
  Z.of_nat n <= 9999 ->
  DatabaseController.generate_number prefix date_str (issue prefix date_str n column)
  = number prefix date_str (Z.of_nat n + 1).
Proof.
  intros Hnone Hn.
  destruct (issue_holds_run prefix date_str column n Hnone ltac:(lia)) as [H1 H2].
  apply generate_after_run; [lia|done|done].
Qed.

Lemma issue_counts_up_witness :
  (forall s, In s ["INV202401010003"]%string ->
             sql_like ("ORD" ++ "20240101" ++ "%") s <> true) /\
  Z.of_nat 3 <= 9999 /\
  DatabaseController.generate_number "ORD" "20240101"
    (issue "ORD" "20240101" 3 ["INV202401010003"]%string)
  = number "ORD" "20240101" (Z.of_nat 3 + 1).
Proof.
  assert (Hnone : forall s, In s ["INV202401010003"]%string ->
                            sql_like ("ORD" ++ "20240101" ++ "%") s <> true).
  { intros s [<-|[]] Hs. vm_compute in Hs. discriminate. }
  split; [exact Hnone|]. split; [lia|].
  exact (issue_counts_up "ORD" "20240101" _ 3 Hnone ltac:(lia)).
Defined.

(** ** Payments and the unpaid list *)

Lemma get_by_id_Some (oid : Z) (o : Order.t) (db : Db) :
  Order.get_by_id oid db = Some o ->
  exists r, rows (orders db) !! oid = Some r /\ o = Order.of_row oid r.
Proof.
  unfold Order.get_by_id. destruct (rows (orders db) !! oid) as [r|]; [|done].
  intros [= <-]. by exists r.
Qed.

(** X7. For an order object just read from the store, after [add_payment]
    the order is on the [get_unpaid] list exactly when the object's
    remaining amount is positive; the other orders are on the list as
    before, and the object still agrees with the stored order. *)
Theorem unpaid_after_payment (o : Order.t) (oid amount : Z) (method : string) (db : Db) :
  Order.get_by_id oid db = Some o ->
  let '(_, o', db') := Order.add_payment o amount method db in
  ((exists u, u ∈ Order.get_unpaid db' /\ Order.id u = Some oid) <->
   0 < Order.remaining_amount o') /\
  (forall u, Order.id u <> Some oid ->
             u ∈ Order.get_unpaid db' <-> u ∈ Order.get_unpaid db) /\
  Order.get_by_id oid db' = Some o'.
Proof.
  intros Hget. apply get_by_id_Some in Hget as (r & Hr & ->).
  assert (Hrem0 : forall r0 : OrderRow,
             (r_paid_amount r0 <? r_total_amount r0) = true <->
             0 < Order.remaining_amount (Order.of_row oid r0)).
  { intros r0. unfold Order.remaining_amount, Order.of_row. cbn. rewrite Z.ltb_lt. lia. }
  destruct (int64 (Order.paid_amount (Order.of_row oid r) + amount) && int64 oid) eqn:Hb.
  2:{ rewrite (add_payment_fails _ oid) by done. unfold Order.get_unpaid.
      split; [|split; [done|]].
      - rewrite <- Hrem0. split.
        + intros (u & Hu & Hid). apply elem_of_select in Hu as (k & r' & Hk & Hc & ->).
          cbn in Hid. injection Hid as ->. rewrite Hr in Hk. by injection Hk as <-.
        + intros Hc. exists (Order.of_row oid r). split; [|done].
          apply elem_of_select. by exists oid, r.
      - unfold Order.get_by_id. by rewrite Hr. }
  rewrite (add_payment_eq _ oid) by done. cbv zeta.
  set (paid := Order.paid_amount (Order.of_row oid r) + amount).
  set (full := Order.total_amount (Order.of_row oid r) <=? paid).
  set (t2 := if full then _ else _).
  set (o2 := if full then _ else _).
  set (r2 := if full then Order.row_set_status "paid" (Order.row_set_paid_amount paid r)
             else Order.row_set_paid_amount paid r).
  assert (Ht2 : rows t2 !! oid = Some r2).
  { subst t2 r2. destruct full; rewrite !lookup_update_row_eq, Hr; done. }
  assert (Hother : forall j, j <> oid -> rows t2 !! j = rows (orders db) !! j).
  { intros j Hj. subst t2. destruct full; by rewrite !lookup_update_row_ne. }
  assert (Ho2 : Order.of_row oid r2 = o2).
  { subst o2 r2. by destruct full. }
  assert (Hrem : (r_paid_amount r2 <? r_total_amount r2) = true <->
                 0 < Order.remaining_amount o2).
  { rewrite <- Ho2. apply Hrem0. }
  unfold Order.get_unpaid. split; [|split].
  - rewrite <- Hrem. split.
    + intros (u & Hu & Hid). apply elem_of_select in Hu as (k & r' & Hk & Hc & ->).
      cbn in Hid, Hk. injection Hid as ->. rewrite Ht2 in Hk. by injection Hk as <-.
    + intros Hc. exists (Order.of_row oid r2). split; [|done].
      apply elem_of_select. by exists oid, r2.
  - intros u Hid. rewrite !elem_of_select. split.
    + intros (k & r' & Hk & Hc & ->). cbn in Hid, Hk.
      exists k, r'. rewrite <- Hother by congruence. done.
    + intros (k & r' & Hk & Hc & ->). cbn in Hid.
      exists k, r'. cbn. rewrite Hother by congruence. done.
  - unfold Order.get_by_id. cbn. rewrite Ht2. by rewrite <- Ho2.
Qed.

Lemma unpaid_after_payment_witness :
  Order.get_by_id 1 scenario_A.2 = Some scenario_A.1.2 /\
  Order.get_by_id 1 (Order.add_payment scenario_A.1.2 30000000 "cash" scenario_A.2).2
  = Some (Order.add_payment scenario_A.1.2 30000000 "cash" scenario_A.2).1.2.
Proof.
  split; [reflexivity|].
  pose proof (unpaid_after_payment scenario_A.1.2 1 30000000 "cash" scenario_A.2 eq_refl) as H.
  destruct (Order.add_payment _ _ _ _) as [[b o'] db']. exact (proj2 (proj2 H)).
Defined.

(** ** What the order operations leave alone *)

Lemma row_evolves_refl (r : OrderRow) : row_evolves r r.
Proof. unfold row_evolves. auto. Qed.

Lemma row_evolves_trans (r1 r2 r3 : OrderRow) :
  row_evolves r1 r2 -> row_evolves r2 r3 -> row_evolves r1 r3.
Proof.
  unfold row_evolves. intros (H1 & H2 & H3 & H4) (G1 & G2 & G3 & G4).
  repeat split; try congruence. destruct G4 as [G4|G4]; [|by right].
  rewrite G4. done.
Qed.

Lemma update_row_evolves (f : OrderRow -> OrderRow) (oid k : Z)
    (t : Table OrderRow) (r' : OrderRow) :
  (forall r, row_evolves r (f r)) ->
  rows (update_row f oid t) !! k = Some r' ->
  exists r, rows t !! k = Some r /\ row_evolves r r'.
Proof.
  intros Hf. rewrite lookup_update_row. case_decide as Hd.
  - subst k. destruct (rows t !! oid) as [r|]; [|done]. cbn. intros [= <-]. by exists r.
  - intros H. exists r'. split; [done|apply row_evolves_refl].
Qed.

Lemma run_operation_evolves (c : operation) (db : Db) (k : Z) (r' : OrderRow) :
  rows (orders (run_operation c db)) !! k = Some r' ->
  exists r, rows (orders db) !! k = Some r /\ row_evolves r r'.
Proof.
  assert (Hsame : rows (orders db) !! k = Some r' ->
                  exists r, rows (orders db) !! k = Some r /\ row_evolves r r')
    by (intros H; exists r'; split; [done|apply row_evolves_refl]).
  assert (Htot : forall v r, row_evolves r (Order.row_set_total_amount v r))
    by (intros; unfold row_evolves; cbn; auto).
  destruct c as [o p q pr|o item|o amount method|o]; cbn [run_operation].
  - destruct (Order.id o) as [oid|] eqn:Hid; [|by rewrite add_item_unsaved].
    destruct (add_item_binds oid p q pr) eqn:Hb; [|by rewrite (add_item_fails o oid)].
    rewrite (add_item_eq o oid) by done. cbn [snd orders].
    by apply update_row_evolves.
  - destruct (rows (order_items db) !! item) as [it|] eqn:Hit;
      [|by rewrite remove_item_missing].
    destruct (Order.id o) as [oid|] eqn:Hid; [|by rewrite remove_item_unsaved].
    rewrite (remove_item_eq o oid item it) by done. cbn [snd orders].
    by apply update_row_evolves.
  - destruct (Order.id o) as [oid|] eqn:Hid; [|by rewrite add_payment_unsaved].
    destruct (int64 (Order.paid_amount o + amount) && int64 oid) eqn:Hb;
      [|by rewrite (add_payment_fails o oid)].
    rewrite (add_payment_eq o oid) by done. cbv zeta. cbn [snd orders].
    assert (Hp : forall v r, row_evolves r (Order.row_set_paid_amount v r))
      by (intros; unfold row_evolves; cbn; auto).
    assert (Hs : forall r, row_evolves r (Order.row_set_status "paid" r))
      by (intros; unfold row_evolves; cbn; auto).
    destruct (Order.total_amount o <=? Order.paid_amount o + amount).
    + intros H. apply update_row_evolves in H as (r1 & H & E1); [|done].
      apply update_row_evolves in H as (r & H & E2); [|done].
      exists r. split; [done|]. by apply (row_evolves_trans r r1 r').
    + by apply update_row_evolves.
  - destruct (Order.id o) as [oid|] eqn:Hid.
    + rewrite (delete_eq o oid) by done. cbn [snd orders delete_row rows].
      intros H. apply lookup_delete_Some in H as [_ H]. by apply Hsame.
    + unfold Order.delete. by rewrite Hid.
Qed.

(** X8. Across any sequence of [add_item], [remove_item], [add_payment]
    and [delete] calls, on any order objects, no order row appears that was
    not stored before, and a stored order that is still there has the
    order number, customer and notes it had; its status is the one it had
    or ['paid']. In particular a status ['paid'] is never withdrawn,
    whatever is added to the order afterwards. *)
Theorem operations_keep_order_identity (l : list operation) (db : Db) (k : Z) (r' : OrderRow) :
  rows (orders (run l db)) !! k = Some r' ->
  exists r, rows (orders db) !! k = Some r /\ row_evolves r r' /\
            (r_status r = "paid"%string -> r_status r' = "paid"%string).
Proof.
  revert db. induction l as [|c l IH]; intros db H.
  - exists r'. split; [done|]. split; [apply row_evolves_refl|done].
  - cbn [run] in H. apply IH in H as (r1 & H & E1 & _).
    apply run_operation_evolves in H as (r & H & E2).
    exists r. split; [done|].
    pose proof (row_evolves_trans r r1 r' E2 E1) as E. split; [done|].
    destruct E as (_ & _ & _ & [E|E]); congruence.
Qed.

Lemma operations_keep_order_identity_witness :
  let l := [add_payment (fst created) 10 "cash"; add_line (fst created) 1 2 15000000] in
  rows (orders (run l (snd created))) !! 1
  = Some (mkOrderRow "ORD202401010001" None "paid" 30000000 10 None) /\
  exists r, rows (orders (snd created)) !! 1 = Some r /\
            r_order_number r = "ORD202401010001"%string.
Proof.
  intros l.
  assert (H : rows (orders (run l (snd created))) !! 1
              = Some (mkOrderRow "ORD202401010001" None "paid" 30000000 10 None))
    by reflexivity.
  split; [exact H|].
  destruct (operations_keep_order_identity l (snd created) 1 _ H) as (r & Hr & (E & _) & _).
  exists r. split; [exact Hr|]. symmetry. exact E.
Defined.

Lemma run_operation_keeps_ledger (c : operation) (db : Db) (j : Z) (f : FinRow) :
  rows (financial_transactions db) !! j = Some f ->
  rows (financial_transactions (run_operation c db)) !! j = Some f.
Proof.
  intros Hj. destruct c as [o p q pr|o item|o amount method|o]; cbn [run_operation].
  - destruct (Order.id o) as [oid|] eqn:Hid; [|by rewrite add_item_unsaved].
    destruct (add_item_binds oid p q pr) eqn:Hb; [|by rewrite (add_item_fails o oid)].
    by rewrite (add_item_eq o oid) by done.
  - destruct (rows (order_items db) !! item) as [it|] eqn:Hit;
      [|by rewrite remove_item_missing].
    destruct (Order.id o) as [oid|] eqn:Hid; [|by rewrite remove_item_unsaved].
    by rewrite (remove_item_eq o oid item it) by done.
  - destruct (Order.id o) as [oid|] eqn:Hid; [|by rewrite add_payment_unsaved].
    destruct (int64 (Order.paid_amount o + amount) && int64 oid) eqn:Hb;
      [|by rewrite (add_payment_fails o oid)].
    rewrite (add_payment_eq o oid) by done. cbv zeta. cbn [snd financial_transactions].
    unfold posted. destruct (int64 (f_amount _)); [|done]. cbn [insert_row fst rows].
    rewrite lookup_insert_ne; [done|].
    intros E. pose proof (next_rowid_fresh (financial_transactions db)) as Hf.
    rewrite E in Hf. congruence.
  - destruct (Order.id o) as [oid|] eqn:Hid.
    + by rewrite (delete_eq o oid) by done.
    + unfold Order.delete. by rewrite Hid.
Qed.

(** X9. The ledger only grows: across any sequence of [add_item],
    [remove_item], [add_payment] and [delete] calls every ledger row that
    was stored is still stored, unchanged, under the same id; deleting an
    order does not remove the payments recorded for it. *)
Theorem ledger_only_grows (l : list operation) (db : Db) (j : Z) (f : FinRow) :
  rows (financial_transactions db) !! j = Some f ->
  rows (financial_transactions (run l db)) !! j = Some f.
Proof.
  revert db. induction l as [|c l IH]; intros db H; [done|].
  cbn [run]. by apply IH, run_operation_keeps_ledger.
Qed.

Lemma ledger_only_grows_witness :
  let db := (Order.add_payment (fst created) 10 "cash" (snd created)).2 in
  f_amount <$> rows (financial_transactions db) !! 1 = Some 10 /\
  f_amount <$>
    rows (financial_transactions (run [delete_order (fst created)] db)) !! 1 = Some 10.
Proof.
  intros db. split; [reflexivity|].
  destruct (rows (financial_transactions db) !! 1) as [f|] eqn:E; [|discriminate].
  rewrite (ledger_only_grows [delete_order (fst created)] db 1 f E).
  vm_compute in E. injection E as <-. reflexivity.
Defined.

(** ** The lines of an order *)

#[global] Instance by_id_trans : Transitive Order.by_id.
Proof. intros a b c. unfold Order.by_id. lia. Qed.

#[global] Instance by_id_total : Total Order.by_id.
Proof. intros a b. unfold Order.by_id. lia. Qed.

Lemma filter_Permutation_bool {A} (f : A -> bool) (l1 l2 : list A) :
  l1 ≡ₚ l2 -> List.filter f l1 ≡ₚ List.filter f l2.
Proof.
  induction 1 as [|x l1 l2 _ IH|x y l|l1 l2 l3 _ IH1 _ IH2]; cbn.
  - done.
  - destruct (f x); [by constructor|done].
  - destruct (f x), (f y); try done. apply perm_swap.
  - by etrans.
Qed.






Lemma sold_keeps_names (product_id quantity j : Z) (p : Table ProductRow) :
  p_name <$> rows (sold product_id quantity p) !! j = p_name <$> rows p !! j.
Proof.
  rewrite lookup_sold. case_decide; [|done]. by destruct (rows p !! j).
Qed.

Lemma sorted_lines_insert (oid k : Z) (new : ItemRow) (m : gmap Z ItemRow) :
  i_order_id new = oid ->
  (forall j it, m !! j = Some it -> j < k) ->
  merge_sort Order.by_id
    (List.filter (fun kv => i_order_id kv.2 =? oid) (map_to_list (<[k := new]> m)))
  = merge_sort Order.by_id
      (List.filter (fun kv => i_order_id kv.2 =? oid) (map_to_list m)) ++ [(k, new)].
Proof.
  intros Hnew Hlt.
  assert (Hk : m !! k = None).
  { destruct (m !! k) as [it|] eqn:E; [|done]. specialize (Hlt k it E). lia. }
  set (P := fun kv : Z * ItemRow => i_order_id kv.2 =? oid).
  set (L := merge_sort Order.by_id (List.filter P (map_to_list m))).
  set (L' := merge_sort Order.by_id (List.filter P (map_to_list (<[k := new]> m)))).
  assert (HL : forall x, x ∈ L -> m !! x.1 = Some x.2).
  { intros [j it] Hx. subst L. rewrite merge_sort_Permutation in Hx.
    apply list_elem_of_In, filter_In in Hx as [Hx _].
    by apply list_elem_of_In, elem_of_map_to_list in Hx. }
  assert (HL' : forall x, x ∈ L' -> <[k := new]> m !! x.1 = Some x.2).
  { intros [j it] Hx. subst L'. rewrite merge_sort_Permutation in Hx.
    apply list_elem_of_In, filter_In in Hx as [Hx _].
    by apply list_elem_of_In, elem_of_map_to_list in Hx. }
  assert (Hperm : L' ≡ₚ L ++ [(k, new)]).
  { subst L L'. rewrite !merge_sort_Permutation.
    rewrite (filter_Permutation_bool P _ _ (map_to_list_insert m k new Hk)).
    cbn. unfold P at 1. cbn. rewrite Hnew, Z.eqb_refl.
    by rewrite Permutation_cons_append. }
  apply (StronglySorted_unique_strong Order.by_id); [| | |done].
  - intros [j1 it1] [j2 it2] H1 H2 R1 R2. unfold Order.by_id in R1, R2. cbn in R1, R2.
    assert (j1 = j2) as -> by lia.
    rewrite <- Hperm in H2. apply HL' in H1. apply HL' in H2. cbn in H1, H2. congruence.
  - apply StronglySorted_merge_sort; apply _.
  - apply StronglySorted_app_2.
    + intros x1 x2 H1 H2. apply list_elem_of_singleton in H2 as ->.
      apply HL in H1. unfold Order.by_id. cbn. specialize (Hlt _ _ H1). lia.
    + apply StronglySorted_merge_sort; apply _.
    + repeat constructor.
Qed.

(** X11. On a saved order, with arguments that the INSERT stores as
    given (ids and quantity that fit 64 bits, price and quantity * price
    at most 2^53 in magnitude), [add_item] puts the new line at the end of
    what [get_items] lists: the answer after the call is the answer before
    it followed by the new line, with the product's name beside it (or no
    name when the product does not exist). *)
Theorem add_item_listed_last (o : Order.t) (oid product_id quantity price : Z) (db : Db) :
  Order.id o = Some oid ->
  line_ok oid product_id quantity price ->
  let '(r, o', db') := Order.add_item o product_id quantity price db in
  exists k,
    r = Some k /\
    Order.get_items o' db' =
      Order.get_items o db ++
      [Order.mkItemView k (mkItemRow oid product_id quantity price (quantity * price))
                        (p_name <$> rows (products db) !! product_id)].
Proof.
  intros Hid Hok. rewrite (add_item_eq o oid) by (done || by apply line_ok_binds).
  cbv zeta.
  set (k := next_rowid (order_items db)). exists k. split; [done|].
  unfold Order.get_items. cbn [Order.id Order.set_total_amount]. rewrite Hid.
  cbn [order_items rows].
  rewrite (sorted_lines_insert oid k); [|done|].
  - rewrite map_app. cbn [map]. f_equal.
    + apply map_ext. intros kv. unfold Order.view. cbn [products].
      by rewrite sold_keeps_names.
    + unfold Order.view. cbn [products fst snd i_product_id line].
      by rewrite sold_keeps_names.
  - intros j it Hj. apply max_key_ge in Hj. unfold k, next_rowid. lia.
Qed.

Lemma add_item_listed_last_witness :
  Order.id scenario_A.1.2 = Some 1 /\
  line_ok 1 7 3 100 /\
  Order.get_items (Order.add_item scenario_A.1.2 7 3 100 scenario_A.2).1.2
                  (Order.add_item scenario_A.1.2 7 3 100 scenario_A.2).2
  = [Order.mkItemView 1 (mkItemRow 1 1 2 15000000 30000000) (Some "Laptop"%string);
     Order.mkItemView 2 (mkItemRow 1 7 3 100 300) None].
Proof.
  assert (Hok : line_ok 1 7 3 100) by (repeat split; reflexivity).
  split; [reflexivity|]. split; [exact Hok|].
  pose proof (add_item_listed_last scenario_A.1.2 1 7 3 100 scenario_A.2 eq_refl Hok) as H.
  destruct (Order.add_item _ _ _ _ _) as [[r o'] db'] eqn:E.
  destruct H as (k & Hk & Hg). cbn [fst snd]. rewrite Hg.
  assert (r = Some 2) as -> by (by injection E as <- _ _).
  injection Hk as <-. reflexivity.
Defined.

(** ** Products *)

(** X12. [save] of a product object that has a name and a price, with a
    price at most 2^53 in magnitude and a stock that is [None] or fits 64
    bits, and that is new, or whose id fits 64 bits and names a stored
    product, answers [True], and [get_by_id] then answers exactly the
    object (with its new id if it was new, an id no product had). The
    other products and the other tables are as before. An object without
    a name or without a price, as the constructor leaves it, is not saved
    when it is new or names a stored product: [save] answers [False] and
    writes nothing. *)
Theorem product_save_then_get (p : Product.t) (db : Db) :
  match Product.id p with
  | Some pid => is_Some (rows (products db) !! pid)
  | None => True
  end ->
  (forall n pr,
      Product.name p = Some n -> Product.price p = Some pr ->
      real_exact pr = true -> bindable (Product.stock p) = true ->
      (forall pid, Product.id p = Some pid -> int64 pid = true) ->
      let '(r, p', db') := Product.save p db in
      r = true /\
      exists k,
        Product.id p' = Some k /\
        Product.get_by_id k db' = Some p' /\
        Product.name p' = Product.name p /\ Product.price p' = Product.price p /\
        Product.stock p' = Product.stock p /\
        (Product.id p = None -> rows (products db) !! k = None) /\
        (forall j, j <> k -> Product.get_by_id j db' = Product.get_by_id j db) /\
        orders db' = orders db /\ order_items db' = order_items db /\
        financial_transactions db' = financial_transactions db) /\
  (Product.name p = None \/ Product.price p = None ->
   Product.save p db = (false, p, db)).
Proof.
  intros Hrow. split.
  - intros n pr Hn Hpr Hex Hst Hpid. unfold Product.save.
    rewrite Hn, Hpr, Hst. cbn [bindable]. rewrite (real_exact_int64 _ Hex). cbn [andb].
    destruct (Product.id p) as [pid|] eqn:Hid.
    + rewrite (Hpid pid eq_refl). destruct Hrow as [r0 Hr0]. rewrite Hr0.
      split; [done|]. exists pid. split; [done|]. split.
      { unfold Product.get_by_id. cbn [products with_products].
        rewrite lookup_update_row_eq, Hr0. cbn. destruct p. cbn in *. by subst. }
      do 3 (split; [done|]). split; [done|]. split; [|done].
      intros j Hj. unfold Product.get_by_id. cbn [products with_products].
      by rewrite lookup_update_row_ne.
    + cbn. split; [done|]. exists (next_rowid (products db)).
      split; [done|]. split.
      { unfold Product.get_by_id. cbn. by rewrite lookup_insert_eq. }
      do 3 (split; [done|]). split; [intros _; apply next_rowid_fresh|]. split; [|done].
      intros j Hj. unfold Product.get_by_id. cbn. by rewrite lookup_insert_ne.
  - intros Hnone. unfold Product.save.
    destruct (bindable (Product.price p) && bindable (Product.stock p)); [|done].
    destruct (Product.id p) as [pid|].
    + destruct (int64 pid); [|done]. destruct Hrow as [r0 ->].
      destruct Hnone as [-> | ->]; [done|]. by destruct (Product.name p).
    + destruct Hnone as [-> | ->]; [done|]. by destruct (Product.name p).
Qed.

Lemma product_save_then_get_witness :
  is_Some (rows (products db0) !! 1) /\
  real_exact 14000000 = true /\ bindable (Some 10) = true /\ int64 1 = true /\
  Product.get_by_id 1
    (Product.save (Product.mk (Some 1) (Some "Laptop"%string) (Some 14000000) (Some 10)) db0).2
  = Some (Product.mk (Some 1) (Some "Laptop"%string) (Some 14000000) (Some 10)) /\
  Product.save (Product.mk None None None (Some 0)) db0
  = (false, Product.mk None None None (Some 0), db0).
Proof.
  assert (Hs : is_Some (rows (products db0) !! 1)) by (by eexists).
  split; [exact Hs|]. split; [reflexivity|]. split; [reflexivity|]. split; [reflexivity|].
  split.
  - pose proof (product_save_then_get
                  (Product.mk (Some 1) (Some "Laptop"%string) (Some 14000000) (Some 10))
                  db0 Hs) as [H _].
    specialize (H "Laptop"%string 14000000 eq_refl eq_refl eq_refl eq_refl).
    assert (Hpid : forall pid : Z, Some 1 = Some pid -> int64 pid = true)
      by (intros pid [= <-]; reflexivity).
    specialize (H Hpid).
    destruct (Product.save _ _) as [[r p'] db'] eqn:E.
    destruct H as (_ & k & Hk & Hg & _).
    assert (p' = Product.mk (Some 1) (Some "Laptop"%string) (Some 14000000) (Some 10))
      as -> by (by injection E as _ <- _).
    injection Hk as <-. exact Hg.
  - exact (proj2 (product_save_then_get (Product.mk None None None (Some 0)) db0 I)
             (or_introl eq_refl)).
Defined.

(** X13. A product object read before a sale and saved after it puts the
    stock of before the sale back. With arguments that [add_item] stores
    as given, a stock that is a number and fits 64 bits before and after
    the sale, and a price at most 2^53 in magnitude: after [add_item] the
    stored stock is the old stock less the quantity, and after [save] of
    the earlier object, which answers [True], it is the old stock again,
    while the line of the sale stays. *)
Theorem stale_product_save_undoes_sale
    (o : Order.t) (oid product_id quantity price s pr : Z) (p : Product.t) (db : Db) :
  Order.id o = Some oid ->
  line_ok oid product_id quantity price ->
  Product.get_by_id product_id db = Some p ->
  Product.stock p = Some s ->
  Product.price p = Some pr ->
  int64 s = true ->
  int64 (s - quantity) = true ->
  real_exact pr = true ->
  let '(_, _, db1) := Order.add_item o product_id quantity price db in
  Product.stock <$> Product.get_by_id product_id db1 = Some (Some (s - quantity)) /\
  let '(r, _, db2) := Product.save p db1 in
  r = true /\
  Product.get_by_id product_id db2 = Some p /\
  order_items db2 = order_items db1 /\ orders db2 = orders db1.
Proof.
  intros Hid Hok Hp Hs Hpr Hb1 Hb2 Hex.
  assert (Hpid : int64 product_id = true) by (by destruct Hok as (_ & ? & _)).
  apply product_get_by_id_Some in Hp as (r & Hr & ->). cbn in Hs, Hpr.
  injection Hpr as Hpr.
  rewrite (add_item_eq o oid) by (done || by apply line_ok_binds). cbv zeta.
  assert (Hsold : rows (sold product_id quantity (products db)) !! product_id
                  = Some (Product.row_set_stock (Some (s - quantity)) r)).
  { rewrite lookup_sold, decide_True by done. rewrite Hr, Hpid. cbn.
    rewrite Hs. unfold stock_step.
    replace (s + - quantity) with (s - quantity) by lia. by rewrite Hb2. }
  split.
  - unfold Product.get_by_id. cbn [products]. by rewrite Hsold.
  - unfold Product.save, Product.of_row.
    cbn [Product.id Product.name Product.price Product.stock bindable products].
    rewrite Hpr, Hs, (real_exact_int64 _ Hex). cbn [bindable]. rewrite Hb1, Hpid, Hsold.
    cbn [andb]. split; [done|]. split; [|done].
    unfold Product.get_by_id. cbn [products with_products].
    by rewrite lookup_update_row_eq, Hsold.
Qed.

Lemma stale_product_save_undoes_sale_witness :
  Order.id (fst created) = Some 1 /\
  line_ok 1 1 2 15000000 /\
  Product.get_by_id 1 (snd created)
  = Some (Product.mk (Some 1) (Some "Laptop"%string) (Some 15000000) (Some 10)) /\
  int64 10 = true /\ int64 (10 - 2) = true /\ real_exact 15000000 = true /\
  Product.stock <$>
    Product.get_by_id 1 (Order.add_item (fst created) 1 2 15000000 (snd created)).2
  = Some (Some (10 - 2)).
Proof.
  assert (Hok : line_ok 1 1 2 15000000) by (repeat split; reflexivity).
  split; [reflexivity|]. split; [exact Hok|]. split; [reflexivity|].
  split; [reflexivity|]. split; [reflexivity|]. split; [reflexivity|].
  pose proof (stale_product_save_undoes_sale (fst created) 1 1 2 15000000 10 15000000 _
                (snd created) eq_refl Hok eq_refl eq_refl eq_refl eq_refl eq_refl eq_refl)
    as H.
  destruct (Order.add_item _ _ _ _ _) as [[r o'] db1]. exact (proj1 H).
Defined.



#[global] Instance by_stock_trans : Transitive Product.by_stock.
Proof.
  intros a b c. unfold Product.by_stock, null_first_le.
  destruct (p_stock a.2), (p_stock b.2), (p_stock c.2); try done. lia.
Qed.

#[global] Instance by_stock_total : Total Product.by_stock.
Proof.
  intros a b. unfold Product.by_stock, null_first_le.
  destruct (p_stock a.2), (p_stock b.2); try tauto. lia.
Qed.

Lemma string_leb_trans (a b c : string) :
  String.leb a b = true -> String.leb b c = true -> String.leb a c = true.
Proof.
  unfold String.leb. destruct (String.compare a b) eqn:Eab; [| |done]; intros _.
  - apply String.compare_eq_iff in Eab. by subst.
  - destruct (String.compare b c) eqn:Ebc; [| |done]; intros _.
    + apply String.compare_eq_iff in Ebc. subst. by rewrite Eab.
    + by rewrite (string_compare_lt_trans a b c).
Qed.

#[global] Instance by_name_trans : Transitive Product.by_name.
Proof. intros a b c. unfold Product.by_name. apply string_leb_trans. Qed.

#[global] Instance by_name_total : Total Product.by_name.
Proof. intros a b. unfold Product.by_name. apply String.leb_total. Qed.

#[global] Instance product_of_row_inj :
  Inj (=) (=) (fun kv : Z * ProductRow => Product.of_row kv.1 kv.2).
Proof.
  intros [k1 [n1 p1 s1]] [k2 [n2 p2 s2]]. unfold Product.of_row. cbn. by intros [= -> -> -> ->].
Qed.


(** X16. [get_all] lists every stored product exactly once, in byte order
    of the names; its length is the number of stored products. *)
Theorem product_get_all_listing (db : Db) :
  StronglySorted (fun a b => exists na nb,
                      Product.name a = Some na /\ Product.name b = Some nb /\
                      String.leb na nb = true)
                 (Product.get_all db) /\
  NoDup (Product.get_all db) /\
  (forall p, p ∈ Product.get_all db <->
             exists k r, rows (products db) !! k = Some r /\ p = Product.of_row k r) /\
  length (Product.get_all db) = size (rows (products db)).
Proof.
  unfold Product.get_all. split; [|split; [|split]].
  - apply (StronglySorted_fmap _ Product.by_name).
    { intros [k1 r1] [k2 r2] H. by exists (p_name r1), (p_name r2). }
    apply StronglySorted_merge_sort; apply _.
  - apply (NoDup_fmap_2 _). rewrite merge_sort_Permutation. apply NoDup_map_to_list.
  - intros p. rewrite list_elem_of_fmap. split.
    + intros ([k r] & -> & Hin). rewrite merge_sort_Permutation in Hin.
      apply elem_of_map_to_list in Hin. by exists k, r.
    + intros (k & r & Hr & ->). exists (k, r). split; [done|].
      rewrite merge_sort_Permutation. by apply elem_of_map_to_list.
  - rewrite length_map, merge_sort_Permutation. apply length_map_to_list.
Qed.

(** ** Settings *)

(** X17. [get_setting] after [set_setting] of the same key answers the
    value that was set, never the default (also when the value set is
    NULL); for every other key it answers what it answered before. The
    key's description afterwards is the one given, if it is not empty, and
    otherwise none: a description stored before is not kept. *)
Theorem setting_set_then_get (key key' : string) (value description default : option string)
    (settings : gmap string DatabaseController.SettingRow) :
  let '(r, settings') := DatabaseController.set_setting key value description settings in
  r = true /\
  DatabaseController.get_setting key default settings' = value /\
  (key' <> key ->
   DatabaseController.get_setting key' default settings'
   = DatabaseController.get_setting key' default settings) /\
  DatabaseController.s_description <$> settings' !! key =
    Some (match description with
          | Some (String c d) => Some (String c d)
          | _ => None
          end).
Proof.
  unfold DatabaseController.set_setting, DatabaseController.get_setting.
  destruct description as [[|c d]|]; (split; [done|]); rewrite !lookup_insert_eq;
    (split; [done|]); (split; [|done]); intros Hne; by rewrite lookup_insert_ne.
Qed.

Lemma setting_set_then_get_witness :
  "tax_rate"%string <> "currency"%string /\
  DatabaseController.get_setting "tax_rate" None
    (DatabaseController.set_setting "currency" (Some "USD"%string) None
       (DatabaseController.insert_default_data ∅)).2
  = Some "10"%string /\
  DatabaseController.s_description <$>
    DatabaseController.insert_default_data ∅ !! "currency"%string
  = Some (Some "Mata uang"%string) /\
  DatabaseController.s_description <$>
    (DatabaseController.set_setting "currency" (Some "USD"%string) None
       (DatabaseController.insert_default_data ∅)).2 !! "currency"%string
  = Some None.
Proof.
  split; [discriminate|].
  pose proof (setting_set_then_get "currency" "tax_rate" (Some "USD"%string) None None
                (DatabaseController.insert_default_data ∅)) as H.
  destruct (DatabaseController.set_setting _ _ _ _) as [r s'].
  destruct H as (_ & _ & H & Hd). cbn [snd].
  split; [rewrite H by discriminate; reflexivity|]. split; [reflexivity|exact Hd].
Defined.

Lemma insert_or_ignore_keeps (settings : gmap string DatabaseController.SettingRow)
    (entry : string * string * string) (k : string) (row : DatabaseController.SettingRow) :
  settings !! k = Some row ->
  DatabaseController.insert_or_ignore settings entry !! k = Some row.
Proof.
  intros Hk. destruct entry as [[key v] d]. unfold DatabaseController.insert_or_ignore.
  destruct (settings !! key) eqn:E; [done|].
  rewrite lookup_insert_ne; [done|]. intros ->. congruence.
Qed.

Lemma executemany_keeps (l : list (string * string * string))
    (settings : gmap string DatabaseController.SettingRow)
    (k : string) (row : DatabaseController.SettingRow) :
  settings !! k = Some row ->
  foldl DatabaseController.insert_or_ignore settings l !! k = Some row.
Proof.
  revert settings. induction l as [|e l IH]; intros settings Hk; [done|].
  cbn. by apply IH, insert_or_ignore_keeps.
Qed.

Lemma executemany_present (l : list (string * string * string))
    (settings : gmap string DatabaseController.SettingRow) (k v d : string) :
  In (k, v, d) l ->
  is_Some (foldl DatabaseController.insert_or_ignore settings l !! k).
Proof.
  revert settings. induction l as [|e l IH]; intros settings; [done|].
  intros [->|Hin]; [|by apply IH]. cbn.
  destruct (settings !! k) as [row|] eqn:E.
  - exists row. by apply executemany_keeps.
  - eexists. apply executemany_keeps. by rewrite lookup_insert_eq.
Qed.

Lemma executemany_noop (l : list (string * string * string))
    (settings : gmap string DatabaseController.SettingRow) :
  (forall k v d, In (k, v, d) l -> is_Some (settings !! k)) ->
  foldl DatabaseController.insert_or_ignore settings l = settings.
Proof.
  induction l as [|[[k v] d] l IH]; intros H; [done|]. cbn.
  destruct (H k v d (or_introl eq_refl)) as [row ->].
  apply IH. intros k' v' d' Hin. apply (H k' v' d'). by right.
Qed.

(** X18. [insert_default_data] never changes a setting that is stored: a
    key present before keeps its value and description. After it every
    default key is present, and running it again changes nothing. Of the
    four default rows for the key [product_category] only the first takes
    effect: when the key was absent its value is ['Elektronik']. *)
Theorem default_data_fills_gaps_only
    (settings : gmap string DatabaseController.SettingRow) :
  (forall k row, settings !! k = Some row ->
                 DatabaseController.insert_default_data settings !! k = Some row) /\
  (forall k v d,
      In (k, v, d) (DatabaseController.default_categories ++ DatabaseController.default_settings) ->
      is_Some (DatabaseController.insert_default_data settings !! k)) /\
  DatabaseController.insert_default_data (DatabaseController.insert_default_data settings)
  = DatabaseController.insert_default_data settings /\
  (settings !! "product_category"%string = None ->
   DatabaseController.get_setting "product_category" None
     (DatabaseController.insert_default_data settings) = Some "Elektronik"%string).
Proof.
  assert (Hkeep : forall k row, settings !! k = Some row ->
                   DatabaseController.insert_default_data settings !! k = Some row).
  { intros k row Hk. unfold DatabaseController.insert_default_data.
    by do 2 apply executemany_keeps. }
  assert (Hpresent : forall k v d,
             In (k, v, d) (DatabaseController.default_categories
                           ++ DatabaseController.default_settings) ->
             is_Some (DatabaseController.insert_default_data settings !! k)).
  { intros k v d Hin. unfold DatabaseController.insert_default_data.
    apply in_app_or in Hin as [Hin|Hin].
    - destruct (executemany_present _ settings k v d Hin) as [row Hrow].
      exists row. by apply executemany_keeps.
    - by apply (executemany_present _ _ k v d). }
  split; [done|]. split; [done|]. split.
  - unfold DatabaseController.insert_default_data at 1.
    rewrite (executemany_noop DatabaseController.default_categories).
    + apply executemany_noop. intros k v d Hin. apply (Hpresent k v d).
      apply in_or_app. by right.
    + intros k v d Hin. apply (Hpresent k v d). apply in_or_app. by left.
  - intros Hnone.
    unfold DatabaseController.get_setting, DatabaseController.insert_default_data.
    rewrite (executemany_keeps _ _ "product_category"
               (DatabaseController.mkSettingRow (Some "Elektronik"%string)
                  (Some "Kategori produk elektronik"%string))); [done|].
    unfold DatabaseController.default_categories. cbn [foldl].
    do 3 apply insert_or_ignore_keeps.
    unfold DatabaseController.insert_or_ignore. rewrite Hnone. apply lookup_insert_eq.
Qed.

Lemma default_data_fills_gaps_only_witness :
  let s : gmap string DatabaseController.SettingRow :=
    {[ "currency"%string := DatabaseController.mkSettingRow (Some "USD"%string) None ]} in
  s !! "currency"%string = Some (DatabaseController.mkSettingRow (Some "USD"%string) None) /\
  DatabaseController.insert_default_data s !! "currency"%string
  = Some (DatabaseController.mkSettingRow (Some "USD"%string) None).
Proof.
  intros s.
  assert (H : s !! "currency"%string
              = Some (DatabaseController.mkSettingRow (Some "USD"%string) None))
    by reflexivity.
  split; [exact H|].
  exact (proj1 (default_data_fills_gaps_only s) _ _ H).
Defined.

(** ** Customers *)

#[global] Instance customer_by_name_trans : Transitive Customer.by_name.
Proof. intros a b c. unfold Customer.by_name. apply string_leb_trans. Qed.

#[global] Instance customer_by_name_total : Total Customer.by_name.
Proof. intros a b. unfold Customer.by_name. apply String.leb_total. Qed.

Lemma sql_like_percent_intro (q s : string) :
  sql_like q s = true -> sql_like (String "%" q) s = true.
Proof. intros H. by rewrite sql_like_cons_percent, H. Qed.

Lemma sql_like_percent_skip (q a s : string) :
  sql_like (String "%" q) s = true -> sql_like (String "%" q) (a ++ s) = true.
Proof.
  intros H. induction a as [|c a IH]; [done|].
  change (String c a ++ s)%string with (String c (a ++ s)).
  by rewrite sql_like_cons_percent, IH, orb_true_r.
Qed.

(** A text that contains the keyword matches the pattern [%keyword%]. *)
Lemma sql_like_contains (keyword a b : string) :
  sql_like ("%" ++ keyword ++ "%") (a ++ keyword ++ b) = true.
Proof.
  change ("%" ++ keyword ++ "%")%string with (String "%" (keyword ++ "%")).
  apply sql_like_percent_skip, sql_like_percent_intro, sql_like_app, sql_like_percent.
Qed.

Lemma filter_all {A} (f : A -> bool) (l : list A) :
  (forall x, f x = true) -> List.filter f l = l.
Proof. intros H. induction l as [|x l IH]; [done|]. cbn. by rewrite H, IH. Qed.

(** X19. [search] lists every stored customer whose name, phone or email
    contains the keyword, lists stored customers only, in byte order of
    the names; with the empty keyword it lists all customers, as
    [get_all] does. *)
Theorem customer_search_finds (keyword : string) (customers : Table Customer.Row) :
  (forall k r a b,
      rows customers !! k = Some r ->
      Customer.c_name r = (a ++ keyword ++ b)%string \/
      Customer.c_phone r = Some (a ++ keyword ++ b)%string \/
      Customer.c_email r = Some (a ++ keyword ++ b)%string ->
      Customer.of_row k r ∈ Customer.search keyword customers) /\
  (forall c, c ∈ Customer.search keyword customers ->
             exists k r, rows customers !! k = Some r /\ c = Customer.of_row k r) /\
  StronglySorted
    (fun x y => match Customer.name x, Customer.name y with
                | Some n, Some m => String.leb n m = true
                | _, _ => True
                end)
    (Customer.search keyword customers) /\
  Customer.search "" customers = Customer.get_all customers.
Proof.
  unfold Customer.search. cbv zeta. split; [|split; [|split]].
  - intros k r a b Hr Hc. apply list_elem_of_fmap. exists (k, r). split; [done|].
    rewrite merge_sort_Permutation. apply list_elem_of_In, filter_In. split.
    + by apply list_elem_of_In, elem_of_map_to_list.
    + cbn. destruct Hc as [-> | [-> | ->]]; cbn; rewrite sql_like_contains;
        by rewrite ?orb_true_r.
  - intros c Hc. apply list_elem_of_fmap in Hc as ([k r] & -> & Hin).
    rewrite merge_sort_Permutation in Hin.
    apply list_elem_of_In, filter_In in Hin as [Hin _].
    apply list_elem_of_In, elem_of_map_to_list in Hin. by exists k, r.
  - apply (StronglySorted_fmap _ Customer.by_name); [by intros [? ?] [? ?]|].
    apply StronglySorted_merge_sort; apply _.
  - unfold Customer.get_all. rewrite filter_all; [done|].
    intros [k r]. apply orb_true_iff. left. apply orb_true_iff. left.
    exact (sql_like_contains "" "" (Customer.c_name r)).
Qed.

Lemma customer_search_finds_witness :
  let customers :=
    mkTable (<[1 := Customer.mkRow "Budi Santoso" None (Some "budi@mail.id"%string) None]> ∅) 1 in
  rows customers !! 1
  = Some (Customer.mkRow "Budi Santoso" None (Some "budi@mail.id"%string) None) /\
  Customer.of_row 1 (Customer.mkRow "Budi Santoso" None (Some "budi@mail.id"%string) None)
  ∈ Customer.search "mail" customers.
Proof.
  intros customers. split; [reflexivity|].
  apply (proj1 (customer_search_finds "mail" customers) 1 _ "budi@" ".id"); [reflexivity|].
  right. right. reflexivity.
Defined.

(** X20. [save] of a new customer succeeds exactly when the object has a
    name. Without a name nothing is stored and the object stays without
    id; with a name the customer gets an id no customer had, [get_by_id]
    with it answers the saved object, and the other customers are as
    before. *)
Theorem customer_save_new (c : Customer.t) (customers : Table Customer.Row) :
  Customer.id c = None ->
  let '(r, c', customers') := Customer.save c customers in
  (r = true <-> is_Some (Customer.name c)) /\
  (r = false -> c' = c /\ customers' = customers) /\
  (r = true ->
   exists k, Customer.id c' = Some k /\
             rows customers !! k = None /\
             Customer.get_by_id k customers' = Some c' /\
             forall j, j <> k ->
                       Customer.get_by_id j customers' = Customer.get_by_id j customers).
Proof.
  intros Hid. unfold Customer.save. rewrite Hid.
  destruct (Customer.name c) as [n|] eqn:En.
  - cbn. split; [split; [by eexists|done]|]. split; [done|]. intros _.
    exists (next_rowid customers). split; [done|]. split; [apply next_rowid_fresh|].
    unfold Customer.get_by_id. cbn. split.
    + by rewrite lookup_insert_eq.
    + intros j Hj. by rewrite lookup_insert_ne.
  - split; [split; [done|by intros [? ?]]|]. split; [done|done].
Qed.

Lemma customer_save_new_witness :
  Customer.id (Customer.mk None None (Some "0812"%string) None None) = None /\
  (Customer.save (Customer.mk None None (Some "0812"%string) None None)
     (mkTable ∅ 0)).2 = mkTable ∅ 0.
Proof.
  split; [reflexivity|].
  pose proof (customer_save_new (Customer.mk None None (Some "0812"%string) None None)
                (mkTable ∅ 0) eq_refl) as H.
  destruct (Customer.save _ _) as [[r c'] t'] eqn:E.
  destruct H as (_ & H & _). cbn [snd]. apply H. by injection E as <- _ _.
Defined.

(** ** License keys *)

(** X21. Whatever the machine and the digest, a key that is accepted has
    19 characters. Of the six built-in keys only the two of that length,
    [EDUCATION-FREE-2024] and [ENTERPRISE-BUS-2024], are accepted (on every
    machine); [DEMO-KEY-1234-5678] has 18 characters and is rejected, and
    so are the other three. *)
Theorem builtin_keys_by_length (sha256_hexdigest : string -> string) (hardware_id : string) :
  let validate := LicenseController.validate_license_key sha256_hexdigest hardware_id in
  (forall k, validate k = true -> String.length k = 19%nat) /\
  validate "EDUCATION-FREE-2024" = true /\
  validate "ENTERPRISE-BUS-2024" = true /\
  validate "DEMO-KEY-1234-5678" = false /\
  validate "BUSINESS-APP-2024-PRO" = false /\
  validate "PREMIUM-LIFETIME-2024" = false /\
  validate "TEST-DEV-2024-KEY" = false.
Proof.
  intros validate. subst validate. unfold LicenseController.validate_license_key. split.
  - intros k. destruct (Nat.eqb (String.length k) 19) eqn:E; [|done].
    intros _. by apply Nat.eqb_eq.
  - repeat split; try reflexivity.
    + cbn [String.length Nat.eqb negb]. by destruct (String.eqb _ _).
    + cbn [String.length Nat.eqb negb]. by destruct (String.eqb _ _).
Qed.

Lemma builtin_keys_by_length_witness :
  LicenseController.validate_license_key (fun _ => EmptyString) "HW" "EDUCATION-FREE-2024"
  = true /\
  String.length "EDUCATION-FREE-2024" = 19%nat.
Proof.
  split; [reflexivity|].
  apply (proj1 (builtin_keys_by_length (fun _ => EmptyString) "HW")). reflexivity.
Defined.

(** X22. After [create_demo_license] the application is not licensed:
    the key it stores is rejected by [is_licensed] on every machine. After
    [save_license] of a key, [is_licensed] answers what
    [validate_license_key] answers for that key, and after
    [remove_license] it answers [False]. *)
Theorem licensed_after (sha256_hexdigest : string -> string) (hardware_id : string)
    (st : LicenseController.Stored) :
  let validate := LicenseController.validate_license_key sha256_hexdigest hardware_id in
  let is_licensed := LicenseController.is_licensed sha256_hexdigest hardware_id in
  (let '(r, st') := LicenseController.create_demo_license st in
   r = Some "DEMO-KEY-1234-5678"%string /\ is_licensed st' = false) /\
  (forall k, is_licensed (LicenseController.save_license k st).2 = validate k) /\
  is_licensed (LicenseController.remove_license st).2 = false.
Proof.
  intros validate is_licensed. subst validate is_licensed. split; [|split].
  - split; reflexivity.
  - intros k. unfold LicenseController.is_licensed. cbn.
    destruct (String.eqb k ""); cbn;
      by destruct (LicenseController.validate_license_key sha256_hexdigest hardware_id k).
  - reflexivity.
Qed.

Lemma hex_upper (c : ascii) :
  LicenseController.is_hex c = true ->
  Ascii.eqb (upper c) "-" = false /\ LicenseController.lower (upper c) = c.
Proof.
  destruct c as [[] [] [] [] [] [] [] []]; vm_compute; intros H;
    first [discriminate H | split; reflexivity].
Qed.

Ltac take_hex s H L :=
  destruct s as [|?c s]; [discriminate L|];
  cbn [LicenseController.all_hex] in H;
  apply andb_true_iff in H as [?Hc H];
  cbn [String.length] in L; apply Nat.succ_inj in L.

Lemma generated_key_shape (sig : string) :
  LicenseController.hex_digest sig = true ->
  let k := LicenseController.str_upper
             (substring 0 4 sig ++ "-" ++ substring 4 4 sig ++ "-" ++
              substring 8 4 sig ++ "-" ++ substring 12 4 sig) in
  String.length k = 19%nat /\
  LicenseController.str_lower (LicenseController.remove_dashes k) = substring 0 16 sig /\
  existsb (String.eqb k) LicenseController.demo_keys = false.
Proof.
  unfold LicenseController.hex_digest. intros H.
  apply andb_true_iff in H as [L H]. apply Nat.eqb_eq in L.
  do 16 take_hex sig H L.
  repeat match goal with
         | Hc : LicenseController.is_hex _ = true |- _ => apply hex_upper in Hc as [? ?]
         end.
  assert (E0 : substring 0 0 sig = EmptyString) by (by destruct sig).
  cbn [substring]. rewrite E0. cbv [String.append LicenseController.str_upper].
  change (upper "-") with "-"%char.
  split; [reflexivity|]. split.
  - cbv [LicenseController.remove_dashes].
    repeat match goal with
           | E : Ascii.eqb (upper _) "-" = false |- _ => rewrite E; clear E
           end.
    cbn [Ascii.eqb Bool.eqb]. cbv [LicenseController.str_lower].
    repeat match goal with
           | E : LicenseController.lower (upper _) = _ |- _ => rewrite E; clear E
           end.
    reflexivity.
  - destruct (existsb _ _) eqn:E; [|done].
    apply existsb_exists in E as (x & Hin & Heq). apply String.eqb_eq in Heq.
    cbn in Hin. destruct Hin as [<-|[<-|[<-|[<-|[<-|[<-|[]]]]]]]; discriminate Heq.
Qed.

(** X23. Let the digest be a real [hexdigest()] (64 characters among
    [0-9a-f]). A key made by [generate_license_key] (from the digest of
    hardware id, creation date and expiry date) has 19 characters, and
    [validate_license_key] accepts it exactly when that digest and the
    digest of the machine's hardware id alone, which is what the validator
    recomputes, agree on their first 16 characters. *)
Theorem generated_key_accepted_iff
    (sha256_hexdigest : string -> string)
    (hardware_id for_hardware_id created_date expiry_date : string) :
  (forall text, LicenseController.hex_digest (sha256_hexdigest text) = true) ->
  let key := LicenseController.generate_license_key sha256_hexdigest
               for_hardware_id created_date expiry_date in
  String.length key = 19%nat /\
  (LicenseController.validate_license_key sha256_hexdigest hardware_id key = true <->
   substring 0 16 (sha256_hexdigest (for_hardware_id ++ created_date ++ expiry_date)%string)
   = substring 0 16 (sha256_hexdigest hardware_id)).
Proof.
  intros Hhex key. subst key. unfold LicenseController.generate_license_key.
  set (sig := sha256_hexdigest (for_hardware_id ++ created_date ++ expiry_date)%string).
  destruct (generated_key_shape sig (Hhex _)) as (Hlen & Hclean & Hdemo).
  split; [exact Hlen|].
  unfold LicenseController.validate_license_key.
  rewrite Hlen, Hclean, Hdemo. cbn [Nat.eqb negb].
  destruct (String.eqb_spec (substring 0 16 sig) (substring 0 16 (sha256_hexdigest hardware_id)));
    split; done.
Qed.

Lemma generated_key_accepted_iff_witness :
  let sha := fun _ : string =>
    "0123456789abcdef0123456789abcdef0123456789abcdef0123456789abcdef"%string in
  (forall text, LicenseController.hex_digest (sha text) = true) /\
  LicenseController.generate_license_key sha "HW" "2024-01-01" "2025-01-01"
  = "0123-4567-89AB-CDEF"%string /\
  LicenseController.validate_license_key sha "HW"
    (LicenseController.generate_license_key sha "HW" "2024-01-01" "2025-01-01") = true.
Proof.
  intros sha.
  assert (Hhex : forall text, LicenseController.hex_digest (sha text) = true)
    by (intros text; reflexivity).
  split; [exact Hhex|]. split; [reflexivity|].
  apply (proj2 (generated_key_accepted_iff sha "HW" "HW" "2024-01-01" "2025-01-01" Hhex)).
  reflexivity.
Defined.

(** ** Configuration values *)

Lemma config_lookup_assign_eq (k : string) (v : Config.json) (items : list (string * Config.json)) :
  Config.lookup k (Config.assign k v items) = Some v.
Proof.
  induction items as [|[k' v'] items IH]; cbn.
  - by rewrite String.eqb_refl.
  - destruct (String.eqb k k') eqn:E; cbn; [by rewrite String.eqb_refl|by rewrite E].
Qed.

Lemma config_lookup_assign_ne (k k' : string) (v : Config.json)
    (items : list (string * Config.json)) :
  k' <> k -> Config.lookup k' (Config.assign k v items) = Config.lookup k' items.
Proof.
  intros Hne. apply String.eqb_neq in Hne.
  induction items as [|[k0 v0] items IH]; cbn.
  - by rewrite Hne.
  - destruct (String.eqb k k0) eqn:E; cbn.
    + apply String.eqb_eq in E. subst k0. by rewrite Hne.
    + by rewrite IH.
Qed.

Lemma split_dot_cons (s : string) : exists k keys, Config.split_dot s = k :: keys.
Proof.
  induction s as [|c s (k & keys & IH)]; cbn; [by eexists _, _|].
  destruct (Ascii.eqb c "."); [by eexists _, _|]. rewrite IH. by eexists _, _.
Qed.

Lemma set_path_unfold (k : string) (keys : list string) (value : Config.json)
    (items : list (string * Config.json)) :
  Config.set_path (k :: keys) value (Config.JDict items) =
    match keys with
    | [] => Some (Config.JDict (Config.assign k value items))
    | _ :: _ =>
        match Config.set_path keys value
                (match Config.lookup k items with
                 | Some c => c
                 | None => Config.JDict []
                 end) with
        | Some child' => Some (Config.JDict (Config.assign k child' items))
        | None => None
        end
    end.
Proof. by destruct keys. Qed.

Lemma set_then_get_path (keys : list string) (value config config' : Config.json) :
  Config.set_path keys value config = Some config' ->
  Config.get_path keys config' = Some value.
Proof.
  revert config config'. induction keys as [|k keys IH]; intros config config'.
  - by destruct config.
  - destruct config as [items|p]; [|done]. rewrite set_path_unfold.
    destruct keys as [|k2 keys].
    + intros [= <-]. cbn. by rewrite config_lookup_assign_eq.
    + destruct (Config.set_path (k2 :: keys) value _) as [child'|] eqn:E; [|done].
      intros [= <-]. cbn [Config.get_path]. rewrite config_lookup_assign_eq.
      by apply (IH _ _ E).
Qed.

Lemma set_path_keeps_others (k k' : string) (keys keys' : list string)
    (value config config' : Config.json) :
  k' <> k ->
  Config.set_path (k :: keys) value config = Some config' ->
  Config.get_path (k' :: keys') config' = Config.get_path (k' :: keys') config.
Proof.
  intros Hne. destruct config as [items|p]; [|done]. rewrite set_path_unfold.
  destruct keys as [|k2 keys].
  - intros [= <-]. cbn. by rewrite config_lookup_assign_ne.
  - destruct (Config.set_path (k2 :: keys) value _) as [child'|]; [|done].
    intros [= <-]. cbn. by rewrite config_lookup_assign_ne.
Qed.

(** X24. When [set] of a dotted key goes through, [get] of the same key
    answers the value that was set, whatever the default; and [get] of any
    key whose first component is another one answers what it answered
    before. A key without a dot can always be set in a dict. *)
Theorem config_set_then_get (key : string) (value default config config' : Config.json) :
  Config.set key value config = Some config' ->
  Config.get key default config' = value /\
  (forall key', head (Config.split_dot key') <> head (Config.split_dot key) ->
                Config.get key' default config' = Config.get key' default config) /\
  (forall items k, Config.split_dot k = [k] ->
                   is_Some (Config.set k value (Config.JDict items))).
Proof.
  unfold Config.set, Config.get. intros Hset. split; [|split].
  - by rewrite (set_then_get_path _ _ _ _ Hset).
  - intros key' Hne.
    destruct (split_dot_cons key) as (k & keys & Ek).
    destruct (split_dot_cons key') as (k' & keys' & Ek').
    rewrite Ek in Hset, Hne. rewrite Ek' in Hne |- *. cbn in Hne.
    rewrite (set_path_keeps_others k k' keys keys' value config config'); [done| |done].
    congruence.
  - intros items k ->. by eexists.
Qed.

Lemma config_set_then_get_witness :
  let config := Config.JDict [("settings"%string,
                               Config.JDict [("currency"%string, Config.JOther "IDR")])] in
  Config.set "settings.currency" (Config.JOther "USD") config
  = Some (Config.JDict [("settings"%string,
                         Config.JDict [("currency"%string, Config.JOther "USD")])]) /\
  Config.get "settings.currency" (Config.JOther "none")
    (Config.JDict [("settings"%string,
                    Config.JDict [("currency"%string, Config.JOther "USD")])])
  = Config.JOther "USD".
Proof.
  intros config.
  assert (H : Config.set "settings.currency" (Config.JOther "USD") config
              = Some (Config.JDict [("settings"%string,
                                     Config.JDict [("currency"%string, Config.JOther "USD")])]))
    by reflexivity.
  split; [exact H|].
  exact (proj1 (config_set_then_get _ _ (Config.JOther "none") _ _ H)).
Defined.

Lemma set_path_fresh (keys : list string) (value : Config.json) :
  keys <> [] -> is_Some (Config.set_path keys value (Config.JDict [])).
Proof.
  induction keys as [|k keys IH]; [done|]. intros _. rewrite set_path_unfold.
  destruct keys as [|k2 keys]; [by eexists|].
  cbn [Config.lookup]. destruct IH as [c' ->]; [done|]. by eexists.
Qed.

(** X25. Below a stored value that is not a dict nothing can be set:
    [set] raises and changes nothing. Where the first component of the key
    is not stored, [set] goes through, creating the dicts on the way. *)
Theorem config_set_under_leaf (k : string) (keys : list string) (value : Config.json)
    (items : list (string * Config.json)) :
  keys <> [] ->
  (forall payload, Config.lookup k items = Some (Config.JOther payload) ->
                   Config.set_path (k :: keys) value (Config.JDict items) = None) /\
  (Config.lookup k items = None ->
   exists config', Config.set_path (k :: keys) value (Config.JDict items) = Some config' /\
                   Config.get_path (k :: keys) config' = Some value).
Proof.
  intros Hne. split.
  - intros payload Hk. rewrite set_path_unfold. destruct keys as [|k2 keys]; [done|].
    rewrite Hk. by destruct keys.
  - intros Hk.
    assert (is_Some (Config.set_path (k :: keys) value (Config.JDict items))) as [c' Hc'].
    { rewrite set_path_unfold. destruct keys as [|k2 keys]; [done|]. rewrite Hk.
      destruct (set_path_fresh (k2 :: keys) value) as [c ->]; [done|]. by eexists. }
    exists c'. split; [done|]. by apply (set_then_get_path _ _ _ _ Hc').
Qed.

Lemma config_set_under_leaf_witness :
  Config.lookup "app_name" [("app_name"%string, Config.JOther "Business Management App")]
  = Some (Config.JOther "Business Management App") /\
  ["x"%string] <> [] /\
  Config.set "app_name.x" (Config.JOther "1")
    (Config.JDict [("app_name"%string, Config.JOther "Business Management App")]) = None.
Proof.
  split; [reflexivity|]. split; [discriminate|].
  exact (proj1 (config_set_under_leaf "app_name" ["x"%string] (Config.JOther "1")
                  [("app_name"%string, Config.JOther "Business Management App")]
                  ltac:(discriminate)) _ eq_refl).
Defined.

Lemma merge_defaults_lookup (default_config config : list (string * Config.json)) (k : string) :
  Config.lookup k (Config.merge_defaults default_config config) =
    match Config.lookup k config with
    | Some v => Some v
    | None => Config.lookup k default_config
    end.
Proof.
  unfold Config.merge_defaults. revert config.
  induction default_config as [|[k0 v0] d IH]; intros config; cbn [foldl].
  - by destruct (Config.lookup k config).
  - rewrite IH. cbn [fst snd Config.lookup].
    destruct (String.eqb_spec k k0) as [->|Hne].
    + destruct (Config.lookup k0 config) as [v|] eqn:E; [by rewrite E|].
      by rewrite config_lookup_assign_eq.
    + destruct (Config.lookup k0 config) as [v|] eqn:E; [done|].
      by rewrite config_lookup_assign_ne.
Qed.

(** X26. The merge of [load_config] works on top-level keys only: after
    it a top-level key has the value the file gave it, or the default's
    when the file lacks the key. A section the file has is taken as it
    is: a key missing inside it is not filled in from the defaults, so
    reading it gives no value. *)
Theorem merge_defaults_is_shallow
    (default_config config : list (string * Config.json)) (k : string) :
  (forall v, Config.lookup k config = Some v ->
             Config.lookup k (Config.merge_defaults default_config config) = Some v) /\
  (Config.lookup k config = None ->
   Config.lookup k (Config.merge_defaults default_config config)
   = Config.lookup k default_config) /\
  (forall section k2 keys,
      Config.lookup k config = Some (Config.JDict section) ->
      Config.lookup k2 section = None ->
      Config.get_path (k :: k2 :: keys)
        (Config.JDict (Config.merge_defaults default_config config)) = None).
Proof.
  split; [|split].
  - intros v Hk. by rewrite merge_defaults_lookup, Hk.
  - intros Hk. by rewrite merge_defaults_lookup, Hk.
  - intros section k2 keys Hk Hk2. cbn [Config.get_path].
    by rewrite merge_defaults_lookup, Hk, Hk2.
Qed.

Lemma merge_defaults_is_shallow_witness :
  let defaults := [("settings"%string,
                    Config.JDict [("currency"%string, Config.JOther "IDR")])] in
  let file := [("settings"%string, Config.JDict [])] in
  Config.lookup "settings" file = Some (Config.JDict []) /\
  Config.lookup "currency" [] = None /\
  Config.get "settings.currency" (Config.JOther "no value")
    (Config.JDict (Config.merge_defaults defaults file)) = Config.JOther "no value".
Proof.
  intros defaults file. split; [reflexivity|]. split; [reflexivity|].
  unfold Config.get.
  change (Config.split_dot "settings.currency") with ["settings"; "currency"]%string.
  rewrite (proj2 (proj2 (merge_defaults_is_shallow defaults file "settings"))
             [] "currency"%string [] eq_refl eq_refl).
  reflexivity.
Defined.

(** ** Stale objects and repeated calls *)

(** X27. [update_stock] adds the quantity to the stock the object holds,
    not to the stored one. For a product read from the store whose stock
    is a number, with an id and sums that fit 64 bits: two adjustments
    made through the object the first call leaves behind add up; made
    through two copies read before either call, the second overwrites the
    first and only the second quantity shows in the store. *)
Theorem update_stock_through_copies (product_id q1 q2 s : Z) (p : Product.t) (db : Db) :
  Product.get_by_id product_id db = Some p ->
  Product.stock p = Some s ->
  int64 product_id = true ->
  int64 (s + q1) = true ->
  let '(r1, p1, db1) := Product.update_stock p q1 db in
  r1 = true /\
  Product.stock <$> Product.get_by_id product_id db1 = Some (Some (s + q1)) /\
  (int64 (s + q1 + q2) = true ->
   let '(r2, _, db2) := Product.update_stock p1 q2 db1 in
   r2 = true /\
   Product.stock <$> Product.get_by_id product_id db2 = Some (Some (s + q1 + q2))) /\
  (int64 (s + q2) = true ->
   let '(r2, _, db2) := Product.update_stock p q2 db1 in
   r2 = true /\
   Product.stock <$> Product.get_by_id product_id db2 = Some (Some (s + q2))).
Proof.
  intros Hp Hs Hpid Hb1. apply product_get_by_id_Some in Hp as (r & Hr & ->).
  cbn in Hs.
  rewrite (update_stock_eq product_id q1 s r) by done.
  split; [done|]. split.
  { unfold Product.get_by_id. cbn [products with_products].
    by rewrite lookup_update_row_eq, Hr. }
  split.
  - intros Hb2.
    rewrite (update_stock_eq product_id q2 (s + q1)
               (Product.row_set_stock (Some (s + q1)) r)); [| |done|done|done].
    + split; [done|]. unfold Product.get_by_id. cbn [products with_products].
      by rewrite !lookup_update_row_eq, Hr.
    + cbn [products with_products]. by rewrite lookup_update_row_eq, Hr.
  - intros Hb2. unfold Product.update_stock, Product.of_row.
    cbn [Product.id Product.stock]. rewrite Hs, Hb2, Hpid. cbn [andb].
    split; [done|]. unfold Product.get_by_id. cbn [products with_products].
    by rewrite !lookup_update_row_eq, Hr.
Qed.

Lemma update_stock_through_copies_witness :
  Product.get_by_id 1 db0 = Some (Product.of_row 1 (mkProductRow "Laptop" 15000000 (Some 10))) /\
  int64 1 = true /\ int64 (10 + -2) = true /\ int64 (10 + -3) = true /\
  Product.stock <$>
    Product.get_by_id 1
      (Product.update_stock (Product.of_row 1 (mkProductRow "Laptop" 15000000 (Some 10))) (-3)
         (Product.update_stock (Product.of_row 1 (mkProductRow "Laptop" 15000000 (Some 10)))
            (-2) db0).2).2
  = Some (Some (10 + -3)).
Proof.
  split; [reflexivity|]. split; [reflexivity|]. split; [reflexivity|]. split; [reflexivity|].
  pose proof (update_stock_through_copies 1 (-2) (-3) 10 _ db0 eq_refl eq_refl eq_refl eq_refl)
    as H.
  destruct (Product.update_stock _ (-2) db0) as [[b p1] db1]. cbn [snd].
  destruct H as (_ & _ & _ & H). specialize (H eq_refl).
  destruct (Product.update_stock _ (-3) db1) as [[b' p2] db2]. exact (proj2 H).
Defined.

(** X28. An order object keeps working after its order was deleted: with
    arguments that the INSERT stores as given, [add_item] on it still
    answers with a new line id and stores a line that names the deleted
    order, while no order row comes back to carry the total; and the stock
    of the product, if it is a number that fits 64 bits after the sale, is
    lowered by the quantity. *)
Theorem add_item_after_delete
    (o : Order.t) (oid product_id quantity price s : Z) (prow : ProductRow) (db : Db) :
  Order.id o = Some oid ->
  line_ok oid product_id quantity price ->
  rows (products db) !! product_id = Some prow ->
  p_stock prow = Some s ->
  int64 (s - quantity) = true ->
  let '(_, o1, db1) := Order.delete o db in
  let '(r, _, db2) := Order.add_item o1 product_id quantity price db1 in
  exists k,
    r = Some k /\
    rows (order_items db2) !! k =
      Some (mkItemRow oid product_id quantity price (quantity * price)) /\
    rows (orders db2) !! oid = None /\
    p_stock <$> rows (products db2) !! product_id = Some (Some (s - quantity)).
Proof.
  intros Hid Hok Hp Hs Hb. rewrite (delete_eq o oid) by done.
  assert (Hpid : int64 product_id = true) by (by destruct Hok as (_ & ? & _)).
  rewrite (add_item_eq o oid) by (done || by apply line_ok_binds). cbv zeta.
  eexists. split; [reflexivity|]. split; [|split].
  - cbn. apply lookup_insert_eq.
  - cbn [orders]. rewrite lookup_update_row. rewrite decide_True by done.
    cbn. by rewrite lookup_delete_eq.
  - cbn [products]. rewrite lookup_sold, decide_True by done. rewrite Hp, Hpid. cbn.
    rewrite Hs. unfold stock_step.
    replace (s + - quantity) with (s - quantity) by lia. by rewrite Hb.
Qed.

Lemma add_item_after_delete_witness :
  Order.id (fst created) = Some 1 /\
  line_ok 1 1 2 15000000 /\
  rows (products (snd created)) !! 1 = Some (mkProductRow "Laptop" 15000000 (Some 10)) /\
  int64 (10 - 2) = true /\
  p_stock <$>
    rows (products
            (Order.add_item (Order.delete (fst created) (snd created)).1.2 1 2 15000000
               (Order.delete (fst created) (snd created)).2).2) !! 1
  = Some (Some (10 - 2)).
Proof.
  assert (Hok : line_ok 1 1 2 15000000) by (repeat split; reflexivity).
  split; [reflexivity|]. split; [exact Hok|]. split; [reflexivity|]. split; [reflexivity|].
  pose proof (add_item_after_delete (fst created) 1 1 2 15000000 10 _ (snd created)
                eq_refl Hok eq_refl eq_refl eq_refl) as H.
  destruct (Order.delete _ _) as [[b o1] db1]. cbn [fst snd].
  destruct (Order.add_item _ _ _ _ _) as [[r o2] db2].
  destruct H as (k & _ & _ & _ & H). exact H.
Defined.

(** X29. Removing a line twice gives the stock back once: after a
    successful [remove_item], the same call again answers [False] and
    leaves the object and the whole store as they are. *)
Theorem remove_item_twice (o : Order.t) (oid item_id : Z) (it : ItemRow) (db : Db) :
  Order.id o = Some oid ->
  rows (order_items db) !! item_id = Some it ->
  let '(r1, o1, db1) := Order.remove_item o item_id db in
  r1 = true /\ Order.remove_item o1 item_id db1 = (false, o1, db1).
Proof.
  intros Hid Hit. rewrite (remove_item_eq o oid item_id it) by done. cbv zeta.
  split; [done|]. apply remove_item_missing. cbn. apply lookup_delete_eq.
Qed.

Lemma remove_item_twice_witness :
  Order.id scenario_A.1.2 = Some 1 /\
  rows (order_items scenario_A.2) !! 1 = Some (mkItemRow 1 1 2 15000000 30000000) /\
  (Order.remove_item (Order.remove_item scenario_A.1.2 1 scenario_A.2).1.2 1
     (Order.remove_item scenario_A.1.2 1 scenario_A.2).2).1.1 = false.
Proof.
  split; [reflexivity|]. split; [reflexivity|].
  pose proof (remove_item_twice scenario_A.1.2 1 1 _ scenario_A.2 eq_refl eq_refl) as H.
  destruct (Order.remove_item scenario_A.1.2 1 scenario_A.2) as [[r1 o1] db1].
  cbn [fst snd]. destruct H as [_ ->]. reflexivity.
Defined.
